(** * OpenWebClipper: the template engine

    A shallow embedding of the template subsystem of the clipper
    (core/template: index.ts, filters.ts, variables.ts) and the properties of
    its renderer, variable resolver and filter registry.

    Conventions of the embedding.
    - A JavaScript string is a [string]; the development covers ASCII text:
      case mapping and white space are the ASCII fragments of the JavaScript
      ones.
    - A JavaScript value is a [Value]: the JSON-like data a context holds.
      Numbers are the integers, in the range where [String] prints plain
      decimal digits.  Members inherited from a prototype (methods) are not
      data and are not represented: an object is its list of own properties,
      in iteration order.
    - A computation that may throw and may write to the console is an [Eff]:
      the lines passed to [console.warn], in order, and the outcome. *)

From Stdlib Require Import ZArith Lia Bool Ascii String DecimalString.
From stdpp Require Import base option list strings gmap.

Set Warnings "-register-all".
Local Open Scope Z_scope.

(** ** JavaScript strings *)

Module Js.

Definition ascii_in (lo hi : N) (c : ascii) : bool :=
  let n := N_of_ascii c in ((lo <=? n) && (n <=? hi))%N.

Definition is_lower (c : ascii) : bool := ascii_in 97 122 c.
Definition is_upper (c : ascii) : bool := ascii_in 65 90 c.
Definition is_digit (c : ascii) : bool := ascii_in 48 57 c.

(** The class [\w] of a regular expression without the [u] and [i] flags. *)
Definition is_word (c : ascii) : bool :=
  is_lower c || is_upper c || is_digit c || Ascii.eqb c "_".

(** White space and line terminators of [String.prototype.trim], in ASCII:
    tab, line feed, vertical tab, form feed, carriage return, space. *)
Definition is_space (c : ascii) : bool :=
  ascii_in 9 13 c || Ascii.eqb c " ".

Definition upper_char (c : ascii) : ascii :=
  if is_lower c then ascii_of_N (N_of_ascii c - 32) else c.

Definition lower_char (c : ascii) : ascii :=
  if is_upper c then ascii_of_N (N_of_ascii c + 32) else c.

Fixpoint map_chars (f : ascii -> ascii) (s : string) : string :=
  match s with
  | EmptyString => EmptyString
  | String c s' => String (f c) (map_chars f s')
  end.

Definition toUpperCase : string -> string := map_chars upper_char.
Definition toLowerCase : string -> string := map_chars lower_char.

Definition str_length (s : string) : nat := String.length s.

Definition startsWith (s p : string) : bool := String.prefix p s.

Definition endsWith (s p : string) : bool :=
  let n := str_length s in
  let k := str_length p in
  (k <=? n)%nat && String.eqb (String.substring (n - k) k s) p.

(** [s.slice(start, end)]: a negative bound counts from the end, both bounds
    are clamped to the string. *)
Definition clamp_index (len i : Z) : Z :=
  if i <? 0 then Z.max (len + i) 0 else Z.min i len.

Definition slice (s : string) (start stop : Z) : string :=
  let len := Z.of_nat (str_length s) in
  let from := clamp_index len start in
  let to := clamp_index len stop in
  String.substring (Z.to_nat from) (Z.to_nat (Z.max (to - from) 0)) s.

(** [s.slice(start)]: up to the end of the string. *)
Definition slice_from (s : string) (start : Z) : string :=
  slice s start (Z.of_nat (str_length s)).

(** [s.charAt(i)]: the character as a string, empty out of range. *)
Definition charAt (s : string) (i : nat) : string :=
  match String.get i s with
  | Some c => String c EmptyString
  | None => EmptyString
  end.

Fixpoint trimStart (s : string) : string :=
  match s with
  | EmptyString => EmptyString
  | String c s' => if is_space c then trimStart s' else s
  end.

Fixpoint trimEnd (s : string) : string :=
  match s with
  | EmptyString => EmptyString
  | String c s' =>
      match trimEnd s' with
      | EmptyString => if is_space c then EmptyString else String c EmptyString
      | t => String c t
      end
  end.

Definition trim (s : string) : string := trimEnd (trimStart s).

(** [s.indexOf(c)] for a one-character needle; [None] stands for [-1]. *)
Fixpoint indexOf (s : string) (c : ascii) : option nat :=
  match s with
  | EmptyString => None
  | String d s' =>
      if Ascii.eqb d c then Some O else option_map S (indexOf s' c)
  end.

(** [s.split(c)] for a one-character separator. *)
Fixpoint split_char (c : ascii) (s : string) : list string :=
  match s with
  | EmptyString => [EmptyString]
  | String d s' =>
      if Ascii.eqb d c then EmptyString :: split_char c s'
      else match split_char c s' with
           | [] => [String d EmptyString]
           | p :: ps => String d p :: ps
           end
  end.

(** [s.split(sep)] for a string separator.  [skip] counts the characters of a
    separator occurrence still to be stepped over; [cur] is the piece being
    built, reversed. *)
Fixpoint rev_string (acc s : string) : string :=
  match s with
  | EmptyString => acc
  | String c s' => rev_string (String c acc) s'
  end.

Fixpoint split_go (sep : string) (skip : nat) (cur s : string) : list string :=
  match s with
  | EmptyString => [rev_string EmptyString cur]
  | String c s' =>
      match skip with
      | S k => split_go sep k cur s'
      | O =>
          if String.prefix sep s
          then rev_string EmptyString cur
                 :: split_go sep (str_length sep - 1) EmptyString s'
          else split_go sep O (String c cur) s'
      end
  end.

Fixpoint chars (s : string) : list string :=
  match s with
  | EmptyString => []
  | String c s' => String c EmptyString :: chars s'
  end.

Definition split (s sep : string) : list string :=
  match sep with
  | EmptyString => chars s
  | _ => split_go sep O EmptyString s
  end.

(** Every occurrence of the non-empty literal [pat], scanned from the left
    without overlap, replaced by [repl]. *)
Fixpoint replace_go (pat repl : string) (skip : nat) (s : string) : string :=
  match s with
  | EmptyString => EmptyString
  | String c s' =>
      match skip with
      | S k => replace_go pat repl k s'
      | O =>
          if String.prefix pat s
          then repl +:+ replace_go pat repl (str_length pat - 1) s'
          else String c (replace_go pat repl O s')
      end
  end.

Fixpoint join (sep : string) (l : list string) : string :=
  match l with
  | [] => EmptyString
  | [x] => x
  | x :: rest => x +:+ sep +:+ join sep rest
  end.

(** Decimal digits of a number, as [String(n)] prints an integer. *)
Definition string_of_Z (n : Z) : string :=
  NilZero.string_of_int (Z.to_int n).

Fixpoint parse_digits (acc : N) (s : string) : option N :=
  match s with
  | EmptyString => Some acc
  | String c s' =>
      if is_digit c
      then parse_digits (acc * 10 + (N_of_ascii c - 48))%N s'
      else None
  end.

(** [parseInt(s, 10)] on a non-empty string of digits. *)
Definition parseInt_digits (s : string) : option N :=
  match s with
  | EmptyString => None
  | _ => parse_digits 0%N s
  end.

Fixpoint all_chars (p : ascii -> bool) (s : string) : bool :=
  match s with
  | EmptyString => true
  | String c s' => p c && all_chars p s'
  end.

(** The double quote character, and a way to write a string that holds it:
    in the argument of [dq] a backquote stands for a double quote. *)
Definition dquote : ascii := "034"%char.
Definition squote : ascii := "'"%char.
Definition backslash : ascii := "\"%char.

Definition dq : string -> string :=
  map_chars (fun c => if Ascii.eqb c "`" then dquote else c).

End Js.

(** ** Values, errors and effects *)

Inductive Value : Type :=
| VUndefined
| VNull
| VBool (b : bool)
| VNum (n : Z)
| VStr (s : string)
| VArr (items : list Value)
| VObj (props : list (string * Value)).

(** The context of a render call: [Record<string, unknown>], the own
    properties of the object in iteration order. *)
Definition Context : Type := list (string * Value).

Inductive JsError : Type :=
| TypeError (message : string).

(** How a call ends.  [Unmodelled] marks a call that leaves the fragment of
    JavaScript this development covers (a regular expression with
    metacharacters, a date, indented JSON, ...): nothing is claimed there. *)
Inductive Outcome (A : Type) : Type :=
| Returns (a : A)
| Throws (e : JsError)
| Unmodelled.
Arguments Returns {A} a.
Arguments Throws {A} e.
Arguments Unmodelled {A}.

(** The lines written with [console.warn], oldest first, and the outcome. *)
Definition Eff (A : Type) : Type := (list string * Outcome A)%type.

Definition ret {A} (a : A) : Eff A := ([], Returns a).
Definition throw {A} (e : JsError) : Eff A := ([], Throws e).
Definition unmodelled {A} : Eff A := ([], Unmodelled).
Definition warn (line : string) : Eff unit := ([line], Returns tt).

Definition bind {A B} (m : Eff A) (k : A -> Eff B) : Eff B :=
  match m with
  | (w, Returns a) => let '(w', r) := k a in (w ++ w', r)
  | (w, Throws e) => (w, Throws e)
  | (w, Unmodelled) => (w, Unmodelled)
  end.

#[global] Instance Eff_ret : MRet Eff := @ret.
#[global] Instance Eff_bind : MBind Eff := fun A B k m => bind m k.

(** A pure call that may throw or be unmodelled, seen as an effectful one. *)
Definition lift {A} (o : Outcome A) : Eff A := ([], o).

(** ** Reading a value *)

Definition isNullish (v : Value) : bool :=
  match v with
  | VUndefined | VNull => true
  | _ => false
  end.

(** [a ?? b] *)
Definition nullish_or (a b : Value) : Value :=
  if isNullish a then b else a.

(** The condition of [if (v)] and the operand of [!v]. *)
Definition truthy (v : Value) : bool :=
  match v with
  | VUndefined | VNull => false
  | VBool b => b
  | VNum n => negb (n =? 0)
  | VStr s => negb (String.eqb s "")
  | VArr _ | VObj _ => true
  end.

Definition isArray (v : Value) : bool :=
  match v with
  | VArr _ => true
  | _ => false
  end.

Fixpoint assoc (k : string) (props : list (string * Value)) : option Value :=
  match props with
  | [] => None
  | (k', v) :: rest => if String.eqb k' k then Some v else assoc k rest
  end.

(** An array index as a property key: the digits of a number, with no
    leading zero. *)
Definition array_index (key : string) : option nat :=
  match key with
  | String "0" (String _ _) => None
  | _ => option_map N.to_nat (Js.parseInt_digits key)
  end.

(** [o[key]] on a value that is neither [null] nor [undefined] (every read of
    the resolver is guarded so).  An object gives its own property; an array
    and a string give their elements and their [length]. *)
Definition getProp (o : Value) (key : string) : Value :=
  match o with
  | VObj props => default VUndefined (assoc key props)
  | VArr items =>
      if String.eqb key "length" then VNum (Z.of_nat (length items))
      else match array_index key with
           | Some i => nth i items VUndefined
           | None => VUndefined
           end
  | VStr s =>
      if String.eqb key "length" then VNum (Z.of_nat (Js.str_length s))
      else match array_index key with
           | Some i => match String.get i s with
                       | Some c => VStr (String c "")
                       | None => VUndefined
                       end
           | None => VUndefined
           end
  | _ => VUndefined
  end.

(** [Object.values(o)] *)
Definition objectValues (o : Value) : list Value :=
  match o with
  | VObj props => map snd props
  | VArr items => items
  | VStr s => map VStr (Js.chars s)
  | _ => []
  end.

(** [String(v)], which is also how a template literal prints [v].  An array
    prints its elements joined with a comma, [null] and [undefined] elements
    as nothing. *)
Fixpoint ToString (v : Value) : string :=
  match v with
  | VUndefined => "undefined"
  | VNull => "null"
  | VBool true => "true"
  | VBool false => "false"
  | VNum n => Js.string_of_Z n
  | VStr s => s
  | VArr items =>
      Js.join ","
        (map (fun x => if isNullish x then "" else ToString x) items)
  | VObj _ => "[object Object]"
  end.

(** [items.join(sep)] *)
Definition arrayJoin (items : list Value) (sep : string) : string :=
  Js.join sep (map (fun x => if isNullish x then "" else ToString x) items).

(** ** The variable processor (core/template/variables.ts) *)

Module VariableProcessor.

(** The match of a path segment against the index notation: one or more word
    characters, an opening bracket, then digits or a star, then a closing
    bracket at the end.  Gives the key and the index.  The key is what stands
    before the first bracket, since a word character is no bracket. *)
Definition match_index_notation (part : string) : option (string * string) :=
  match Js.indexOf part "[" with
  | None => None
  | Some i =>
      let key := String.substring 0 i part in
      let rest := Js.slice_from part (Z.of_nat i + 1) in
      if negb (String.eqb key "") && Js.all_chars Js.is_word key
         && Js.endsWith rest "]"
      then
        let index := Js.slice rest 0 (-1) in
        if String.eqb index "*"
           || (negb (String.eqb index "") && Js.all_chars Js.is_digit index)
        then Some (key, index)
        else None
      else None
  end.

(** The index of [current[parseInt(index, 10)]]. *)
Definition parseInt (index : string) : nat :=
  default O (option_map N.to_nat (Js.parseInt_digits index)).

(** The loop of [resolveProperty] over the segments of the path. *)
Fixpoint resolveProperty_loop (parts : list string) (current : Value) : Value :=
  match parts with
  | [] => nullish_or current (VStr "")
  | part :: rest =>
      if isNullish current then VStr ""
      else
        match match_index_notation part with
        | Some (key, index) =>
            let current := getProp current key in
            match current with
            | VArr items =>
                if String.eqb index "*" then current
                else resolveProperty_loop rest
                       (nth (parseInt index) items VUndefined)
            | _ => resolveProperty_loop rest current
            end
        | None => resolveProperty_loop rest (getProp current part)
        end
  end.

Definition resolveProperty (path : string) (obj : Value) : Value :=
  resolveProperty_loop (Js.split_char "." path) obj.

Definition resolveMeta (expression : string) (variables : Context) : Value :=
  let metadata := getProp (VObj variables) "metadata" in
  if negb (truthy metadata) then VStr ""
  else
    match Js.split_char ":" expression with
    | type :: name :: _ =>
        if String.eqb type "name" || String.eqb type "property"
        then nullish_or
               (getProp metadata ("meta_" +:+ type +:+ "_" +:+ name))
               (VStr "")
        else nullish_or (getProp metadata expression) (VStr "")
    | _ => nullish_or (getProp metadata expression) (VStr "")
    end.

Definition resolveSelector (selector : string) (variables : Context) : Value :=
  let selectors := getProp (VObj variables) "_selectors" in
  if truthy selectors && truthy (getProp selectors selector)
  then getProp selectors selector
  else VStr "".

Definition resolveSelectorHtml (selector : string) (variables : Context)
  : Value :=
  let selectorsHtml := getProp (VObj variables) "_selectorsHtml" in
  if truthy selectorsHtml && truthy (getProp selectorsHtml selector)
  then getProp selectorsHtml selector
  else VStr "".

(** [typeof v === 'object' && v !== null] *)
Definition isObject (v : Value) : bool :=
  match v with
  | VArr _ | VObj _ => true
  | _ => false
  end.

(** [v !== ''] *)
Definition notEmptyString (v : Value) : bool :=
  match v with
  | VStr s => negb (String.eqb s "")
  | _ => true
  end.

(** The search of [resolveSchema] through every schema type. *)
Fixpoint schema_search (expression : string) (types : list Value) : Value :=
  match types with
  | [] => VStr ""
  | type :: rest =>
      if isObject type then
        let value := resolveProperty expression type in
        if notEmptyString value then value
        else schema_search expression rest
      else schema_search expression rest
  end.

Definition resolveSchema (expression : string) (variables : Context) : Value :=
  let schema := getProp (VObj variables) "_schema" in
  if negb (truthy schema) then VStr ""
  else if Js.startsWith expression "@" then
    match Js.indexOf expression ":" with
    | Some colonIndex =>
        let type := Js.slice expression 1 (Z.of_nat colonIndex) in
        let path := Js.slice_from expression (Z.of_nat colonIndex + 1) in
        let schemaType := getProp schema type in
        if truthy schemaType then resolveProperty path schemaType
        else VStr ""
    | None => VStr ""
    end
  else schema_search expression (objectValues schema).

Definition resolve (name : string) (variables : Context) : Value :=
  if Js.startsWith name (String Js.dquote "")
     && Js.endsWith name (String Js.dquote "")
  then VStr ("{{" +:+ name +:+ "}}")
  else if Js.startsWith name "meta:" then
    resolveMeta (Js.slice_from name 5) variables
  else if Js.startsWith name "selector:" then
    resolveSelector (Js.slice_from name 9) variables
  else if Js.startsWith name "selectorHtml:" then
    resolveSelectorHtml (Js.slice_from name 13) variables
  else if Js.startsWith name "schema:" then
    resolveSchema (Js.slice_from name 7) variables
  else resolveProperty name (VObj variables).

End VariableProcessor.

(** ** The filter processor (core/template/filters.ts) *)

(** [(value, ...args: string[]) => unknown] *)
Abbreviation FilterFunction := (Value -> list string -> Outcome Value)
  (only parsing).

Module FilterProcessor.

(** The capital letters of [replace(/\b\w/g, c => c.toUpperCase())]: a word
    character that follows no word character. *)
Fixpoint title_go (prev_word : bool) (s : string) : string :=
  match s with
  | EmptyString => EmptyString
  | String c s' =>
      String (if Js.is_word c && negb prev_word then Js.upper_char c else c)
             (title_go (Js.is_word c) s')
  end.

(** The characters with a meaning of their own in the source of a regular
    expression, and the one with a meaning in a replacement string. *)
Definition is_regex_syntax (c : ascii) : bool :=
  existsb (Ascii.eqb c)
    ["\"; "^"; "$"; "."; "*"; "+"; "?"; "("; ")"; "["; "]"; "{"; "}"; "|"]%char.

Definition is_literal_pattern (search : string) : bool :=
  Js.all_chars (fun c => negb (is_regex_syntax c)) search.

Definition is_literal_replacement (replace : string) : bool :=
  Js.all_chars (fun c => negb (Ascii.eqb c "$")) replace.

(** The empty pattern matches before every character and at the end. *)
Fixpoint replace_empty (replace s : string) : string :=
  match s with
  | EmptyString => replace
  | String c s' => replace +:+ String c (replace_empty replace s')
  end.

(** [str.replace(new RegExp(search, 'g'), replace)] where [search] is made of
    characters that stand for themselves and [replace] holds no dollar sign;
    an absent [search] compiles to the empty pattern. *)
Definition regexReplaceAll (str : string) (search : option string)
    (replace : string) : Outcome string :=
  let source := default "" search in
  if is_literal_pattern source && is_literal_replacement replace then
    match source with
    | EmptyString => Returns (replace_empty replace str)
    | _ => Returns (Js.replace_go source replace O str)
    end
  else Unmodelled.

(** [[...new Set(items)]] for items compared by value. *)
Definition prim_eqb (a b : Value) : option bool :=
  match a, b with
  | VArr _, _ | VObj _, _ | _, VArr _ | _, VObj _ => None
  | VUndefined, VUndefined | VNull, VNull => Some true
  | VBool x, VBool y => Some (Bool.eqb x y)
  | VNum x, VNum y => Some (x =? y)
  | VStr x, VStr y => Some (String.eqb x y)
  | _, _ => Some false
  end.

Fixpoint unique_go (seen items : list Value) : list Value :=
  match items with
  | [] => []
  | x :: rest =>
      if existsb (fun y => default false (prim_eqb x y)) seen
      then unique_go seen rest
      else x :: unique_go (x :: seen) rest
  end.

(** The items of the [list] filter, numbered from [index]. *)
Fixpoint list_items (type : string) (index : nat) (items : list Value)
  : list string :=
  match items with
  | [] => []
  | item :: rest =>
      let n := Js.string_of_Z (Z.of_nat index + 1) in
      (if String.eqb type "numbered" then n +:+ ". " +:+ ToString item
       else if String.eqb type "task" then "- [ ] " +:+ ToString item
       else if String.eqb type "numbered-task"
            then n +:+ ". [ ] " +:+ ToString item
       else "- " +:+ ToString item)
      :: list_items type (S index) rest
  end.

Definition newline : string := String "010"%char "".

(** The built-in filters, in the order [registerBuiltinFilters] registers
    them.  [args !! i] is the i-th argument, [None] when it is not passed. *)
Module Builtin.

Definition date : FilterFunction := fun value args => Unmodelled.

Definition lower : FilterFunction := fun value args =>
  Returns (VStr (Js.toLowerCase (ToString value))).

Definition upper : FilterFunction := fun value args =>
  Returns (VStr (Js.toUpperCase (ToString value))).

Definition capitalize : FilterFunction := fun value args =>
  let str := ToString value in
  Returns (VStr (Js.toUpperCase (Js.charAt str 0)
                 +:+ Js.toLowerCase (Js.slice_from str 1))).

Definition title : FilterFunction := fun value args =>
  Returns (VStr (title_go false (ToString value))).

Definition trim : FilterFunction := fun value args =>
  Returns (VStr (Js.trim (ToString value))).

Definition replace : FilterFunction := fun value args =>
  let search := args !! 0%nat in
  let replace := default "" (args !! 1%nat) in
  match regexReplaceAll (ToString value) search replace with
  | Returns s => Returns (VStr s)
  | Throws e => Throws e
  | Unmodelled => Unmodelled
  end.

Definition slice : FilterFunction := fun value args => Unmodelled.
Definition camel : FilterFunction := fun value args => Unmodelled.
Definition pascal : FilterFunction := fun value args => Unmodelled.
Definition snake : FilterFunction := fun value args => Unmodelled.
Definition kebab : FilterFunction := fun value args => Unmodelled.
Definition safe_name : FilterFunction := fun value args => Unmodelled.

Definition blockquote : FilterFunction := fun value args =>
  Returns (VStr (Js.join newline
                   (map (fun line => "> " +:+ line)
                        (Js.split (ToString value) newline)))).

Definition wikilink : FilterFunction := fun value args =>
  match value with
  | VArr items =>
      Returns (VArr (map (fun v => VStr ("[[" +:+ ToString v +:+ "]]")) items))
  | _ =>
      match args !! 0%nat with
      | Some (String c a as alias) =>
          Returns (VStr ("[[" +:+ ToString value +:+ "|" +:+ alias +:+ "]]"))
      | _ => Returns (VStr ("[[" +:+ ToString value +:+ "]]"))
      end
  end.

Definition link : FilterFunction := fun value args =>
  match args !! 0%nat with
  | Some (String c t as text) =>
      Returns (VStr ("[" +:+ text +:+ "](" +:+ ToString value +:+ ")"))
  | _ =>
      Returns (VStr ("[" +:+ ToString value +:+ "](" +:+ ToString value
                     +:+ ")"))
  end.

Definition join : FilterFunction := fun value args =>
  let separator := default ", " (args !! 0%nat) in
  match value with
  | VArr items => Returns (VStr (arrayJoin items separator))
  | _ => Returns value
  end.

Definition split : FilterFunction := fun value args =>
  let separator := default "," (args !! 0%nat) in
  Returns (VArr (map VStr (Js.split (ToString value) separator))).

Definition first : FilterFunction := fun value args =>
  match value with
  | VArr items => Returns (nth 0 items VUndefined)
  | _ => Returns value
  end.

Definition last : FilterFunction := fun value args =>
  match value with
  | VArr items => Returns (List.last items VUndefined)
  | _ => Returns value
  end.

Definition unique : FilterFunction := fun value args =>
  match value with
  | VArr items =>
      if forallb (fun x => negb (VariableProcessor.isObject x)) items
      then Returns (VArr (unique_go [] items))
      else Unmodelled
  | _ => Returns value
  end.

Definition list : FilterFunction := fun value args =>
  let type := default "bullet" (args !! 0%nat) in
  match value with
  | VArr items => Returns (VStr (Js.join newline (list_items type 0 items)))
  | _ => Returns value
  end.

Definition length : FilterFunction := fun value args =>
  match value with
  | VArr items => Returns (VNum (Z.of_nat (Datatypes.length items)))
  | VStr s => Returns (VNum (Z.of_nat (Js.str_length s)))
  | VObj props => Returns (VNum (Z.of_nat (Datatypes.length props)))
  | _ => Returns (VNum 0)
  end.

Definition default : FilterFunction := fun value args =>
  let defaultValue := option.default "" (args !! 0%nat) in
  match value with
  | VNull | VUndefined | VStr EmptyString => Returns (VStr defaultValue)
  | _ => Returns value
  end.

Definition json : FilterFunction := fun value args => Unmodelled.
Definition parse_json : FilterFunction := fun value args => Unmodelled.
Definition strip_html : FilterFunction := fun value args => Unmodelled.
Definition strip_md : FilterFunction := fun value args => Unmodelled.

End Builtin.

(** [register(name, fn)]: [this.filters.set(name, fn)] *)
Definition register (name : string) (fn : FilterFunction)
    (filters : gmap string FilterFunction) : gmap string FilterFunction :=
  <[name := fn]> filters.

(** The table after [registerBuiltinFilters]. *)
Definition builtinFilters : gmap string FilterFunction :=
  foldl (fun filters entry => register entry.1 entry.2 filters) ∅
    [("date", Builtin.date); ("lower", Builtin.lower);
     ("upper", Builtin.upper); ("capitalize", Builtin.capitalize);
     ("title", Builtin.title); ("trim", Builtin.trim);
     ("replace", Builtin.replace); ("slice", Builtin.slice);
     ("camel", Builtin.camel); ("pascal", Builtin.pascal);
     ("snake", Builtin.snake); ("kebab", Builtin.kebab);
     ("safe_name", Builtin.safe_name); ("blockquote", Builtin.blockquote);
     ("wikilink", Builtin.wikilink); ("link", Builtin.link);
     ("join", Builtin.join); ("split", Builtin.split);
     ("first", Builtin.first); ("last", Builtin.last);
     ("unique", Builtin.unique); ("list", Builtin.list);
     ("length", Builtin.length); ("default", Builtin.default);
     ("json", Builtin.json); ("parse_json", Builtin.parse_json);
     ("strip_html", Builtin.strip_html); ("strip_md", Builtin.strip_md)].

(** [apply(name, value, ...args)] on the table [filters]. *)
Definition apply (filters : gmap string FilterFunction) (name : string)
    (value : Value) (args : list string) : Eff Value :=
  match filters !! name with
  | None => warn ("Unknown filter: " +:+ name) ;; mret value
  | Some filter => lift (filter value args)
  end.

End FilterProcessor.

(** ** The template engine (core/template/index.ts) *)

(** The result of [parseFilter]. *)
Record FilterCall : Type := { name : string; args : list string }.

Module TemplateEngine.

(** [if (current.trim()) { parts.push(emit(current.trim())) }] *)
Definition push_trimmed (emit : string -> string) (parts : list string)
    (current : string) : list string :=
  match Js.trim current with
  | EmptyString => parts
  | piece => parts ++ [emit piece]
  end.

(** The character loop that [parseExpression] and [parseFilterArgs] both
    run, over the characters [rest] still to read.  [prev] is the character
    before the current one ([expression[i - 1]], absent at [i = 0]);
    [sep] is the separator, a pipe for one and a comma for the other;
    [emit] is what is done to a piece before it is pushed; [quoteChar] is
    [None] for the initial empty string. *)
Fixpoint scan_loop (sep : ascii) (emit : string -> string) (rest : string)
    (prev : option ascii) (parts : list string) (current : string)
    (inQuotes : bool) (quoteChar : option ascii) (depth : Z) : list string :=
  match rest with
  | EmptyString => push_trimmed emit parts current
  | String char rest' =>
      let next := scan_loop sep emit rest' (Some char) in
      let current' := current +:+ String char "" in
      if (Ascii.eqb char Js.dquote || Ascii.eqb char Js.squote)
         && negb (bool_decide (prev = Some Js.backslash))
      then
        if negb inQuotes then next parts current' true (Some char) depth
        else if bool_decide (Some char = quoteChar)
        then next parts current' false quoteChar depth
        else next parts current' inQuotes quoteChar depth
      else if Ascii.eqb char "(" && negb inQuotes
      then next parts current' inQuotes quoteChar (depth + 1)
      else if Ascii.eqb char ")" && negb inQuotes
      then next parts current' inQuotes quoteChar (depth - 1)
      else if Ascii.eqb char sep && negb inQuotes && (depth =? 0)
      then next (push_trimmed emit parts current) "" inQuotes quoteChar depth
      else next parts current' inQuotes quoteChar depth
  end.

Definition parseExpression (expression : string) : list string :=
  scan_loop "|" id expression None [] "" false None 0.

Definition unquote (str : string) : string :=
  if (Js.startsWith str (String Js.dquote "")
      && Js.endsWith str (String Js.dquote ""))
     || (Js.startsWith str "'" && Js.endsWith str "'")
  then Js.slice str 1 (-1)
  else str.

Definition parseFilterArgs (argsString : string) : list string :=
  let argsString :=
    if Js.startsWith argsString "(" && Js.endsWith argsString ")"
    then Js.slice argsString 1 (-1)
    else argsString in
  scan_loop "," unquote argsString None [] "" false None 0.

Definition parseFilter (filter : string) : FilterCall :=
  match Js.indexOf filter ":" with
  | None => {| name := filter; args := [] |}
  | Some colonIndex =>
      let name := Js.trim (Js.slice filter 0 (Z.of_nat colonIndex)) in
      let argsString :=
        Js.trim (Js.slice_from filter (Z.of_nat colonIndex + 1)) in
      {| name := name; args := parseFilterArgs argsString |}
  end.

(** [JSON.stringify(value)] of a value inside an object: a string between
    double quotes with its escapes, an array element that is [undefined]
    as [null], a property that is [undefined] left out. *)
Definition hex_digit (n : N) : ascii :=
  if (n <? 10)%N then ascii_of_N (48 + n) else ascii_of_N (87 + n).

Definition json_escape (c : ascii) : string :=
  let n := N_of_ascii c in
  if Ascii.eqb c Js.dquote then String Js.backslash (String Js.dquote "")
  else if Ascii.eqb c Js.backslash
  then String Js.backslash (String Js.backslash "")
  else if (n =? 8)%N then String Js.backslash "b"
  else if (n =? 9)%N then String Js.backslash "t"
  else if (n =? 10)%N then String Js.backslash "n"
  else if (n =? 12)%N then String Js.backslash "f"
  else if (n =? 13)%N then String Js.backslash "r"
  else if (n <? 32)%N
  then String Js.backslash
         ("u00" +:+ String (hex_digit (n / 16)) (String (hex_digit (n mod 16)) ""))
  else String c "".

Fixpoint json_escape_all (s : string) : string :=
  match s with
  | EmptyString => EmptyString
  | String c s' => json_escape c +:+ json_escape_all s'
  end.

Definition json_quote (s : string) : string :=
  String Js.dquote (json_escape_all s +:+ String Js.dquote "").

Fixpoint JSON_stringify (v : Value) : string :=
  match v with
  | VUndefined | VNull => "null"
  | VBool true => "true"
  | VBool false => "false"
  | VNum n => Js.string_of_Z n
  | VStr s => json_quote s
  | VArr items => "[" +:+ Js.join "," (map JSON_stringify items) +:+ "]"
  | VObj props =>
      "{" +:+ Js.join ","
                ((fix members (ps : list (string * Value)) : list string :=
                    match ps with
                    | [] => []
                    | (k, VUndefined) :: rest => members rest
                    | (k, x) :: rest =>
                        (json_quote k +:+ ":" +:+ JSON_stringify x)
                        :: members rest
                    end) props)
          +:+ "}"
  end.

Definition stringify (value : Value) : string :=
  match value with
  | VNull | VUndefined => ""
  | VStr s => s
  | VArr items => arrayJoin items ", "
  | VObj _ => JSON_stringify value
  | _ => ToString value
  end.

(** The placeholder that starts a string, if one does: two opening braces,
    one or more characters that are no closing brace, two closing braces.
    Gives the text between the braces and what follows the placeholder. *)
Fixpoint span_body (s : string) : string * string :=
  match s with
  | EmptyString => (EmptyString, EmptyString)
  | String c s' =>
      if Ascii.eqb c "}" then (EmptyString, s)
      else let '(body, after) := span_body s' in (String c body, after)
  end.

Definition match_placeholder (s : string) : option (string * string) :=
  match s with
  | String "{" (String "{" s1) =>
      match span_body s1 with
      | (String c b as body, String "}" (String "}" after)) =>
          Some (body, after)
      | _ => None
      end
  | _ => None
  end.

(** What reading [startsWith] from [undefined] throws. *)
Definition undefined_name_error : JsError :=
  TypeError "Cannot read properties of undefined (reading 'startsWith')".

Section Engine.

(** The table of the engine's filter processor. *)
Variable filters : gmap string FilterFunction.

(** The loop [for (const filter of filters)] of [processExpression]. *)
Fixpoint apply_filters (filterStrings : list string) (value : Value)
  : Eff Value :=
  match filterStrings with
  | [] => mret value
  | filter :: rest =>
      let call := parseFilter filter in
      value ← FilterProcessor.apply filters (name call) value (args call);
      apply_filters rest value
  end.

(** With no part at all [parts[0]] is [undefined], and the first statement of
    [resolve], [name.startsWith], throws. *)
Definition processExpression (expression : string) (variables : Context)
  : Eff string :=
  match parseExpression expression with
  | [] => throw undefined_name_error
  | variableName :: filterStrings =>
      let value := VariableProcessor.resolve variableName variables in
      value ← apply_filters filterStrings value;
      mret (stringify value)
  end.

(** [template.replace(/\{\{([^}]+)\}\}/g, callback)]: the placeholders are
    looked for from the left; a character that starts none is copied.  [fuel]
    bounds the number of steps, each of which reads at least one
    character. *)
Fixpoint render_loop (fuel : nat) (template : string) (variables : Context)
  : Eff string :=
  match fuel with
  | O => mret ""
  | S fuel' =>
      match template with
      | EmptyString => mret ""
      | String c template' =>
          match match_placeholder template with
          | Some (expression, after) =>
              text ← processExpression (Js.trim expression) variables;
              out ← render_loop fuel' after variables;
              mret (text +:+ out)
          | None =>
              out ← render_loop fuel' template' variables;
              mret (String c out)
          end
      end
  end.

Definition render (template : string) (variables : Context) : Eff string :=
  render_loop (Js.str_length template) template variables.

End Engine.

End TemplateEngine.

(** The engine as [new TemplateEngine()] builds it. *)
Definition engine_render : string -> Context -> Eff string :=
  TemplateEngine.render FilterProcessor.builtinFilters.

(** ** What the specification says, in its own words *)

Module Spec.



Definition no_closing_brace (body : string) : Prop :=
  Js.all_chars (fun c => negb (Ascii.eqb c "}")) body = true.

(** A template contains a placeholder: two opening braces, a non-empty text
    with no closing brace, two closing braces. *)
Definition has_placeholder (template : string) : Prop :=
  exists pre body post,
    template = pre +:+ "{{" +:+ body +:+ "}}" +:+ post
    /\ body <> "" /\ no_closing_brace body.

(** The same, decided by trying every position of the template. *)
Fixpoint find_placeholder (template : string) : bool :=
  match TemplateEngine.match_placeholder template with
  | Some _ => true
  | None =>
      match template with
      | EmptyString => false
      | String _ rest => find_placeholder rest
      end
  end.

(** A capitalisation that touches the first character only. *)
Definition capitalize_first_only (s : string) : string :=
  match s with
  | EmptyString => EmptyString
  | String c rest => String (Js.upper_char c) rest
  end.

(** The stored value when there is one and it is truthy, the empty string
    when the key is missing or the stored value is falsy. *)
Definition truthy_or_empty (stored : option Value) : Value :=
  match stored with
  | Some v => if truthy v then v else VStr ""
  | None => VStr ""
  end.

End Spec.

(** ** File names (popup/index.ts, api/index.ts) *)

Module FileName.

(** The class of characters a file name must not hold: the angle brackets,
    the colon, the double quote, the slash, the backslash, the pipe, the
    question mark and the star. *)
Definition is_forbidden (c : ascii) : bool :=
  existsb (Ascii.eqb c)
    ["<"%char; ">"%char; ":"%char; Js.dquote; "/"%char; Js.backslash;
     "|"%char; "?"%char; "*"%char].

(** [name.replace(forbidden, '')] with the global flag. *)
Fixpoint remove_forbidden (name : string) : string :=
  match name with
  | EmptyString => EmptyString
  | String c rest =>
      if is_forbidden c then remove_forbidden rest
      else String c (remove_forbidden rest)
  end.

(** [name.replace(/\s+/g, ' ')]: every run of white space becomes one space.
    [in_run] tells that the character before was white space. *)
Fixpoint collapse_spaces (in_run : bool) (name : string) : string :=
  match name with
  | EmptyString => EmptyString
  | String c rest =>
      if Js.is_space c
      then if in_run then collapse_spaces true rest
           else String " " (collapse_spaces true rest)
      else String c (collapse_spaces false rest)
  end.

(** [sanitizeFileName] of the popup. *)
Definition sanitizeFileName (name : string) : string :=
  Js.slice (Js.trim (collapse_spaces false (remove_forbidden name))) 0 200.

(** [generateFilename] of the public API. *)
Definition generateFilename (title : string) : string :=
  Js.slice (Js.trim (collapse_spaces false (remove_forbidden title))) 0 200
  +:+ ".md".

End FileName.

(** ** The content extractor (core/extractor/index.ts) *)

Module ContentExtractor.

(** [html.replace(tag, ' ')] with the global flag, a tag being an opening
    angle bracket, any characters that are no closing angle bracket, and a
    closing angle bracket.  [skip] counts the characters of a tag still to be
    stepped over. *)
Fixpoint strip_tags_go (skip : nat) (html : string) : string :=
  match html with
  | EmptyString => EmptyString
  | String c rest =>
      match skip with
      | S k => strip_tags_go k rest
      | O =>
          if Ascii.eqb c "<" then
            match Js.indexOf rest ">" with
            | Some k => String " " (strip_tags_go (S k) rest)
            | None => String c (strip_tags_go O rest)
            end
          else String c (strip_tags_go O rest)
      end
  end.

(** [text.split(/\s+/)]: the pieces between the runs of white space, the
    empty pieces at the ends included.  [cur] is the piece being built,
    reversed. *)
Fixpoint split_spaces_go (in_run : bool) (cur text : string) : list string :=
  match text with
  | EmptyString => [Js.rev_string EmptyString cur]
  | String c rest =>
      if Js.is_space c
      then if in_run then split_spaces_go true cur rest
           else Js.rev_string EmptyString cur
                  :: split_spaces_go true EmptyString rest
      else split_spaces_go false (String c cur) rest
  end.

Definition countWords (html : string) : nat :=
  let text := Js.trim (strip_tags_go O html) in
  let words :=
    List.filter (fun w => (0 <? Js.str_length w)%nat)
                (split_spaces_go false EmptyString text) in
  length words.

End ContentExtractor.

(** ** The placeholders of a template, and what is put in their place *)

Module Placeholders.




Section Substitution.

Variable filters : gmap string FilterFunction.
Variable variables : Context.



End Substitution.

End Placeholders.

(** ** The range in which the model is the JavaScript of the code *)

(** The members every object inherits from [Object.prototype]: a read of one
    of these names on an object that has no own property of the name gives
    the inherited member, not [undefined]. *)
Definition object_prototype_names : list string :=
  ["constructor"; "__proto__"; "__defineGetter__"; "__defineSetter__";
   "__lookupGetter__"; "__lookupSetter__"; "hasOwnProperty"; "isPrototypeOf";
   "propertyIsEnumerable"; "toLocaleString"; "toString"; "valueOf"].

Definition inherited_name (key : string) : bool :=
  existsb (String.eqb key) object_prototype_names.

(** A value all of whose numbers are safe integers, which [String] and
    [JSON.stringify] print in plain decimal digits. *)
Fixpoint plain_value (v : Value) : bool :=
  match v with
  | VNum n => Z.abs n <=? 9007199254740991
  | VArr items => forallb plain_value items
  | VObj props => forallb (fun entry => plain_value (snd entry)) props
  | _ => true
  end.

(** ** Predicates on strings *)

(** The string holds no occurrence of the character. *)
Definition lacks (c : ascii) (s : string) : Prop :=
  Js.all_chars (fun d => negb (Ascii.eqb d c)) s = true.

(** A character the scan of an expression only copies: no quote, no
    parenthesis and not the separator. *)
Definition plain_char (sep c : ascii) : bool :=
  negb (Ascii.eqb c Js.dquote) && negb (Ascii.eqb c Js.squote)
  && negb (Ascii.eqb c "(") && negb (Ascii.eqb c ")")
  && negb (Ascii.eqb c sep).

(** White space or a pipe. *)
Definition blank_or_pipe (c : ascii) : bool :=
  Js.is_space c || Ascii.eqb c "|".

(** A character a sanitised file name may hold: none of the forbidden ones,
    and of the white space only the space. *)
Definition file_name_char (c : ascii) : bool :=
  negb (FileName.is_forbidden c) && (negb (Js.is_space c) || Ascii.eqb c " ").

(** The number of words of a text, a word being a run of characters that are
    no white space; [pending] tells that a word is under way. *)
Fixpoint word_runs (pending : bool) (text : string) : nat :=
  match text with
  | EmptyString => if pending then 1 else 0
  | String c rest =>
      if Js.is_space c
      then (if pending then 1 else 0) + word_runs false rest
      else word_runs true rest
  end.

(** The last character of a string, [d] for the empty string. *)
Fixpoint last_char (s : string) (d : option ascii) : option ascii :=
  match s with
  | EmptyString => d
  | String c rest => last_char rest (Some c)
  end.

(** A character of the ASCII range, where the case mapping of the model is
    that of JavaScript. *)
Definition is_ascii (c : ascii) : bool := (N_of_ascii c <? 128)%N.

(** * Properties *)

(** ** Behaviour on concrete inputs *)

Example slice_drops_the_ends : Js.slice "'abc'" 1 (-1) = "abc".
Proof. reflexivity. Qed.
Example slice_of_one_character : Js.slice "(" 1 (-1) = "".
Proof. reflexivity. Qed.
Example trim_both_ends : Js.trim "  a b  " = "a b".
Proof. reflexivity. Qed.
Example split_on_a_string : Js.split "a, b, c" ", " = ["a"; "b"; "c"].
Proof. reflexivity. Qed.
Example split_on_colons :
  Js.split_char ":" "property:og:title" = ["property"; "og"; "title"].
Proof. reflexivity. Qed.
Example replace_without_overlap : Js.replace_go "aa" "b" 0 "aaaxaa" = "baxb".
Proof. reflexivity. Qed.
Example digits_of_numbers :
  Js.string_of_Z (-12) = "-12" /\ Js.string_of_Z 0 = "0".
Proof. split; reflexivity. Qed.
Example ToString_of_an_array :
  ToString (VArr [VNum 1; VNull; VArr [VStr "a"; VStr "b"]; VBool true])
  = "1,,a,b,true".
Proof. reflexivity. Qed.

Example resolve_nested_path :
  VariableProcessor.resolve "a.b[1].c"
    [("a", VObj [("b", VArr [VNum 1; VObj [("c", VStr "y")]])])]
  = VStr "y".
Proof. reflexivity. Qed.
Example resolve_every_item :
  VariableProcessor.resolve "b[*].c" [("b", VArr [VNum 1; VNum 2])]
  = VArr [VNum 1; VNum 2].
Proof. reflexivity. Qed.
Example resolve_missing_property :
  VariableProcessor.resolve "a.b" [("a", VObj [])] = VStr "".
Proof. reflexivity. Qed.
Example resolve_schema_type_and_search :
  VariableProcessor.resolve "schema:@Article:author"
    [("_schema", VObj [("Article", VObj [("author", VStr "Ann")])])]
  = VStr "Ann"
  /\ VariableProcessor.resolve "schema:author"
       [("_schema", VObj [("Recipe", VObj [("name", VStr "Pie")]);
                          ("Article", VObj [("author", VStr "Ann")])])]
     = VStr "Ann".
Proof. split; reflexivity. Qed.
Example resolve_meta_name :
  VariableProcessor.resolve "meta:name:author"
    [("metadata", VObj [("meta_name_author", VStr "Ann")])]
  = VStr "Ann".
Proof. reflexivity. Qed.

Example parse_quoted_pipe_and_parentheses :
  TemplateEngine.parseExpression (Js.dq "a | f:`x|y` | g:(1|2) ||h")
  = ["a"; Js.dq "f:`x|y`"; "g:(1|2)"; "h"].
Proof. reflexivity. Qed.
Example parse_comma_arguments :
  TemplateEngine.parseFilter (Js.dq "replace:`,`,`;`")
  = {| name := "replace"; args := [","; ";"] |}.
Proof. reflexivity. Qed.
Example parse_unbalanced_quote :
  TemplateEngine.parseExpression (Js.dq "a|f:`x|g")
  = ["a"; Js.dq "f:`x|g"].
Proof. reflexivity. Qed.

Example render_paths :
  engine_render "{{a}} and {{a.b}}{{c.d}}!"
    [("a", VObj [("b", VStr "y")]); ("c", VObj [])]
  = mret (Js.dq "{`b`:`y`} and y!").
Proof. vm_compute. reflexivity. Qed.
Example render_join :
  engine_render (Js.dq "{{a|join:`, `}}") [("a", VArr [VNum 1; VNum 2; VNum 3])]
  = mret "1, 2, 3".
Proof. vm_compute. reflexivity. Qed.
Example render_first :
  engine_render "{{a|first}}" [("a", VArr [VNum 1; VNum 2])] = mret "1".
Proof. vm_compute. reflexivity. Qed.
Example render_default_keeps_zero_and_false :
  engine_render (Js.dq "{{a|default:`d`}}/{{b|default:`d`}}/{{c|default:`d`}}")
    [("a", VNum 0); ("b", VBool false); ("c", VStr "")]
  = mret "0/false/d".
Proof. vm_compute. reflexivity. Qed.
Example render_replace_with_comma_arguments :
  engine_render (Js.dq "{{a|replace:`,`,`;`}}") [("a", VStr "1,2,3")]
  = mret "1;2;3".
Proof. vm_compute. reflexivity. Qed.
Example render_title :
  engine_render "{{a|title}}" [("a", VStr "hello big-world")]
  = mret "Hello Big-World".
Proof. vm_compute. reflexivity. Qed.
Example render_empty_braces_are_text :
  engine_render "{{}} {a} {{a}" [] = mret "{{}} {a} {{a}".
Proof. vm_compute. reflexivity. Qed.

(** ** Effects: the laws of sequencing *)

Lemma bind_ret_l {A B} (a : A) (k : A -> Eff B) : (mret a ≫= k) = k a.
Proof.
  unfold mbind, Eff_bind, mret, Eff_ret, ret, bind.
  destruct (k a) as [w r]. reflexivity.
Qed.

Lemma bind_ret_r {A} (m : Eff A) : (m ≫= mret) = m.
Proof.
  unfold mbind, Eff_bind, mret, Eff_ret, ret, bind.
  destruct m as [w [a | e |]]; try reflexivity.
  rewrite app_nil_r. reflexivity.
Qed.

Lemma bind_assoc {A B C} (m : Eff A) (f : A -> Eff B) (g : B -> Eff C) :
  ((m ≫= f) ≫= g) = (m ≫= fun a => f a ≫= g).
Proof.
  unfold mbind, Eff_bind, bind.
  destruct m as [w [a | e |]]; try reflexivity.
  destruct (f a) as [w1 [b | e |]]; try reflexivity.
  destruct (g b) as [w2 r]. rewrite app_assoc. reflexivity.
Qed.

(** ** Strings *)

Lemma substring_all (s : string) : String.substring 0 (String.length s) s = s.
Proof. induction s as [| c s IH]; simpl; [reflexivity | now rewrite IH]. Qed.

Lemma substring_after (p s : string) :
  String.substring (String.length p) (String.length s) (p +:+ s) = s.
Proof. induction p as [| c p IH]; simpl; [apply substring_all | exact IH]. Qed.

Lemma length_append (p s : string) :
  String.length (p +:+ s) = (String.length p + String.length s)%nat.
Proof. induction p as [| c p IH]; simpl; [reflexivity | now rewrite IH]. Qed.

(** [(p + s).slice(p.length)] is [s]. *)
Lemma slice_from_append (p s : string) :
  Js.slice_from (p +:+ s) (Z.of_nat (String.length p)) = s.
Proof.
  unfold Js.slice_from, Js.slice, Js.clamp_index, Js.str_length.
  rewrite length_append.
  set (a := String.length p). set (b := String.length s).
  destruct (Z.ltb_spec (Z.of_nat a) 0) as [Hneg | _]; [lia |].
  destruct (Z.ltb_spec (Z.of_nat (a + b)) 0) as [Hneg | _]; [lia |].
  replace (Z.to_nat (Z.min (Z.of_nat a) (Z.of_nat (a + b)))) with a by lia.
  replace (Z.to_nat (Z.max (Z.min (Z.of_nat (a + b)) (Z.of_nat (a + b))
                            - Z.min (Z.of_nat a) (Z.of_nat (a + b))) 0))
    with b by lia.
  apply substring_after.
Qed.

Lemma startsWith_append (p s : string) : Js.startsWith (p +:+ s) p = true.
Proof.
  unfold Js.startsWith. induction p as [| c p IH]; simpl.
  - destruct s; reflexivity.
  - rewrite IH. destruct (ascii_dec c c); [reflexivity | contradiction].
Qed.

(** ** Finding a placeholder *)

Lemma span_body_spec (s body after : string) :
  TemplateEngine.span_body s = (body, after) ->
  s = body +:+ after /\ Spec.no_closing_brace body.
Proof.
  unfold Spec.no_closing_brace.
  revert body after. induction s as [| c s IH]; simpl; intros body after H.
  - injection H as <- <-. split; reflexivity.
  - destruct (Ascii.eqb c "}") eqn:Hc.
    + injection H as <- <-. split; reflexivity.
    + destruct (TemplateEngine.span_body s) as [b a] eqn:Hs.
      injection H as <- <-. destruct (IH b a eq_refl) as [-> Hb].
      split; [reflexivity |]. simpl. rewrite Hc, Hb. reflexivity.
Qed.

Lemma span_body_append (body after : string) :
  Spec.no_closing_brace body ->
  TemplateEngine.span_body (body +:+ String "}" after)
  = (body, String "}" after).
Proof.
  unfold Spec.no_closing_brace.
  induction body as [| c body IH]; simpl; intros H; [reflexivity |].
  apply andb_true_iff in H as [Hc Hb]. apply negb_true_iff in Hc.
  rewrite Hc, (IH Hb). reflexivity.
Qed.

(** A match is a placeholder at the head of the string. *)
Lemma match_placeholder_sound (s body after : string) :
  TemplateEngine.match_placeholder s = Some (body, after) ->
  s = "{{" +:+ body +:+ "}}" +:+ after
  /\ body <> "" /\ Spec.no_closing_brace body.
Proof.
  unfold TemplateEngine.match_placeholder. intros H.
  destruct s as [| c0 [| c1 s1]]; try discriminate.
  - destruct c0 as [[] [] [] [] [] [] [] []]; discriminate.
  - destruct (Ascii.eqb_spec c0 "{") as [-> | Hn0];
      [| destruct c0 as [[] [] [] [] [] [] [] []]; try discriminate;
         contradiction].
    destruct (Ascii.eqb_spec c1 "{") as [-> | Hn1];
      [| destruct c1 as [[] [] [] [] [] [] [] []]; try discriminate;
         contradiction].
    destruct (TemplateEngine.span_body s1) as [b a] eqn:Hs.
    apply span_body_spec in Hs as [-> Hb].
    destruct b as [| cb b]; [discriminate |].
    destruct a as [| a0 [| a1 a]]; try discriminate.
    + destruct a0 as [[] [] [] [] [] [] [] []]; discriminate.
    + destruct (Ascii.eqb_spec a0 "}") as [-> | Hna0];
        [| destruct a0 as [[] [] [] [] [] [] [] []]; try discriminate;
           contradiction].
      destruct (Ascii.eqb_spec a1 "}") as [-> | Hna1];
        [| destruct a1 as [[] [] [] [] [] [] [] []]; try discriminate;
           contradiction].
      injection H as <- <-. split; [reflexivity |]. split; [discriminate |].
      exact Hb.
Qed.

(** A placeholder at the head of the string is matched. *)
Lemma match_placeholder_complete (body after : string) :
  body <> "" -> Spec.no_closing_brace body ->
  TemplateEngine.match_placeholder ("{{" +:+ body +:+ "}}" +:+ after)
  = Some (body, after).
Proof.
  intros Hne Hb.
  change ("{{" +:+ body +:+ "}}" +:+ after)
    with (String "{" (String "{" (body +:+ String "}" (String "}" after)))).
  unfold TemplateEngine.match_placeholder.
  rewrite (span_body_append body (String "}" after) Hb).
  destruct body; [contradiction | reflexivity].
Qed.

Lemma match_placeholder_shorter (s body after : string) :
  TemplateEngine.match_placeholder s = Some (body, after) ->
  (String.length after < String.length s)%nat.
Proof.
  intros H. apply match_placeholder_sound in H as [-> _].
  rewrite !length_append. simpl. lia.
Qed.

Lemma find_placeholder_eq (template : string) :
  Spec.find_placeholder template
  = match TemplateEngine.match_placeholder template with
    | Some _ => true
    | None =>
        match template with
        | EmptyString => false
        | String _ rest => Spec.find_placeholder rest
        end
    end.
Proof. destruct template; reflexivity. Qed.

Lemma find_placeholder_complete (template : string) :
  Spec.has_placeholder template -> Spec.find_placeholder template = true.
Proof.
  intros (pre & body & post & -> & Hne & Hb).
  induction pre as [| c pre IH]; rewrite find_placeholder_eq.
  - change ("" +:+ "{{" +:+ body +:+ "}}" +:+ post)
      with ("{{" +:+ body +:+ "}}" +:+ post).
    rewrite (match_placeholder_complete body post Hne Hb). reflexivity.
  - change (String c pre +:+ "{{" +:+ body +:+ "}}" +:+ post)
      with (String c (pre +:+ "{{" +:+ body +:+ "}}" +:+ post)).
    destruct (TemplateEngine.match_placeholder _); [reflexivity | exact IH].
Qed.

Lemma find_placeholder_sound (template : string) :
  Spec.find_placeholder template = true -> Spec.has_placeholder template.
Proof.
  induction template as [| c rest IH]; intros H.
  - discriminate.
  - rewrite find_placeholder_eq in H.
    destruct (TemplateEngine.match_placeholder (String c rest))
      as [[body after] |] eqn:Hm.
    + apply match_placeholder_sound in Hm as (Heq & Hne & Hb).
      exists "", body, after. rewrite Heq. auto.
    + destruct (IH H) as (pre & body & post & -> & Hne & Hb).
      exists (String c pre), body, post. auto.
Qed.

(** ** The renderer *)

Section Renderer.

Variable filters : gmap string FilterFunction.
Variable variables : Context.

Lemma bind_ext {A B} (m : Eff A) (f g : A -> Eff B) :
  (forall a, f a = g a) -> (m ≫= f) = (m ≫= g).
Proof.
  intros H. unfold mbind, Eff_bind, bind.
  destruct m as [w [a | e |]]; try reflexivity. rewrite H. reflexivity.
Qed.

Lemma render_loop_eq (fuel : nat) (c : ascii) (rest : string) :
  TemplateEngine.render_loop filters (S fuel) (String c rest) variables
  = match TemplateEngine.match_placeholder (String c rest) with
    | Some (expression, after) =>
        text ← TemplateEngine.processExpression filters
                 (Js.trim expression) variables;
        out ← TemplateEngine.render_loop filters fuel after variables;
        mret (text +:+ out)
    | None =>
        out ← TemplateEngine.render_loop filters fuel rest variables;
        mret (String c out)
    end.
Proof. reflexivity. Qed.

(** Fuel beyond the length of the template changes nothing: [render] gives
    the loop all the fuel it can use. *)
Lemma render_loop_fuel (f1 : nat) :
  forall (f2 : nat) (s : string),
    (String.length s <= f1)%nat -> (String.length s <= f2)%nat ->
    TemplateEngine.render_loop filters f1 s variables
    = TemplateEngine.render_loop filters f2 s variables.
Proof.
  induction f1 as [| f1 IH]; intros f2 s H1 H2.
  - destruct s; [| simpl in H1; lia]. destruct f2; reflexivity.
  - destruct s as [| c s]; [destruct f2; reflexivity |].
    destruct f2 as [| f2]; [simpl in H2; lia |].
    rewrite !render_loop_eq. simpl in H1, H2.
    destruct (TemplateEngine.match_placeholder (String c s))
      as [[expression after] |] eqn:Hm.
    + apply match_placeholder_shorter in Hm. simpl in Hm.
      apply bind_ext. intros text.
      rewrite (IH f2 after) by lia. reflexivity.
    + rewrite (IH f2 s) by lia. reflexivity.
Qed.

Lemma render_loop_enough (fuel : nat) (s : string) :
  (String.length s <= fuel)%nat ->
  TemplateEngine.render_loop filters fuel s variables
  = TemplateEngine.render filters s variables.
Proof.
  intros H. unfold TemplateEngine.render, Js.str_length.
  apply render_loop_fuel; [exact H | reflexivity].
Qed.

(** A template that starts with a placeholder: the placeholder is processed,
    then the rest of the template. *)
Lemma render_placeholder_first (body post : string) :
  body <> "" -> Spec.no_closing_brace body ->
  TemplateEngine.render filters ("{{" +:+ body +:+ "}}" +:+ post) variables
  = (text ← TemplateEngine.processExpression filters (Js.trim body) variables;
     out ← TemplateEngine.render filters post variables;
     mret (text +:+ out)).
Proof.
  intros Hne Hb.
  pose proof (match_placeholder_complete body post Hne Hb) as Hm.
  pose proof (match_placeholder_shorter _ _ _ Hm) as Hlen.
  unfold TemplateEngine.render at 1. unfold Js.str_length.
  revert Hm Hlen.
  change ("{{" +:+ body +:+ "}}" +:+ post)
    with (String "{" ("{" +:+ body +:+ "}}" +:+ post)).
  generalize ("{" +:+ body +:+ "}}" +:+ post). intros rest Hm Hlen.
  change (String.length (String "{" rest)) with (S (String.length rest)).
  rewrite render_loop_eq, Hm. apply bind_ext. intros text.
  rewrite render_loop_enough; [reflexivity |]. simpl in Hlen. lia.
Qed.

(** A character that starts no placeholder is copied. *)
Lemma render_no_placeholder (fuel : nat) :
  forall template : string,
    (String.length template <= fuel)%nat ->
    Spec.find_placeholder template = false ->
    TemplateEngine.render_loop filters fuel template variables
    = mret template.
Proof.
  induction fuel as [| fuel IH]; intros template Hlen Hnone.
  - destruct template; [reflexivity | simpl in Hlen; lia].
  - destruct template as [| c rest]; [reflexivity |].
    rewrite render_loop_eq. rewrite find_placeholder_eq in Hnone.
    destruct (TemplateEngine.match_placeholder (String c rest));
      [discriminate |].
    simpl in Hlen. rewrite (IH rest) by (lia || exact Hnone).
    exact (bind_ret_l rest (fun out => mret (String c out))).
Qed.



End Renderer.

Lemma match_placeholder_other (c : ascii) (s : string) :
  c <> "{"%char -> TemplateEngine.match_placeholder (String c s) = None.
Proof.
  intros Hc. unfold TemplateEngine.match_placeholder.
  destruct c as [[] [] [] [] [] [] [] []]; try reflexivity.
  contradiction.
Qed.

Lemma render_copies_text (filters : gmap string FilterFunction)
    (ctx : Context) (text template : string) :
  lacks "{" text ->
  TemplateEngine.render filters (text +:+ template) ctx
  = (out ← TemplateEngine.render filters template ctx; mret (text +:+ out)).
Proof.
  unfold lacks. induction text as [| c text IH]; intros Hlacks.
  - symmetry. exact (bind_ret_r _).
  - cbn [Js.all_chars] in Hlacks.
    apply andb_true_iff in Hlacks as [Hc Htext].
    apply negb_true_iff, Ascii.eqb_neq in Hc.
    change (String c text +:+ template) with (String c (text +:+ template)).
    unfold TemplateEngine.render at 1. unfold Js.str_length.
    cbn [String.length].
    rewrite render_loop_eq, (match_placeholder_other c _ Hc).
    rewrite render_loop_enough by reflexivity.
    rewrite (IH Htext), bind_assoc. apply bind_ext. intros out.
    exact (bind_ret_l (text +:+ out) (fun o => mret (String c o))).
Qed.



(** ** The specification, checked against the code *)

(** C1: [render] is said to return a string for every template and context,
    whatever the placeholders hold.  The code does not: a placeholder whose
    body is white space only has no part at all, [parts[0]] is [undefined],
    and [resolve] throws a [TypeError] that aborts the whole [render]; the
    same happens for a body made of pipes only. *)
Theorem C1_blank_placeholder_throws :
  forall (filters : gmap string FilterFunction) (ctx : Context),
    TemplateEngine.render filters "{{ }}" ctx = throw TemplateEngine.undefined_name_error
    /\ TemplateEngine.render filters "before {{|}} after" ctx
       = throw TemplateEngine.undefined_name_error.
Proof. intros filters ctx. split; reflexivity. Qed.



(** C3: [render('{{a|replace:",":";"}}', {a: "1,2,3"})] is said to be
    ["1;2;3"], the filter receiving a comma and a semicolon.  The code splits
    the arguments at commas only: the whole text after the first colon is one
    argument, its outer quotes are removed, and [replace] searches for it
    and finds nothing. *)
Theorem C3_replace_with_colon_separated_arguments :
  TemplateEngine.parseFilter (Js.dq "replace:`,`:`;`")
  = {| name := "replace"; args := [Js.dq ",`:`;"] |}
  /\ engine_render (Js.dq "{{a|replace:`,`:`;`}}") [("a", VStr "1,2,3")]
     = mret "1,2,3".
Proof. split; vm_compute; reflexivity. Qed.

(** C4: for every placeholder body that begins and ends with a double quote
    and every context, [resolve] returns the body between its braces again,
    whatever the context; and [render('{{"summarize this"}}', ctx)] is the
    placeholder itself. *)
Theorem C4_prompt_literal_is_left_in_place :
  (forall (name : string) (ctx : Context),
      Js.startsWith name (String Js.dquote "") = true ->
      Js.endsWith name (String Js.dquote "") = true ->
      VariableProcessor.resolve name ctx = VStr ("{{" +:+ name +:+ "}}"))
  /\ (forall (filters : gmap string FilterFunction) (ctx : Context),
         TemplateEngine.render filters (Js.dq "{{`summarize this`}}") ctx
         = mret (Js.dq "{{`summarize this`}}")).
Proof.
  split.
  - intros name ctx Hs He. unfold VariableProcessor.resolve.
    rewrite Hs, He. reflexivity.
  - intros filters ctx. reflexivity.
Qed.

Lemma C4_prompt_literal_witness :
  VariableProcessor.resolve (Js.dq "`list the main points`")
    [("title", VStr "t")]
  = VStr ("{{" +:+ Js.dq "`list the main points`" +:+ "}}").
Proof.
  apply (proj1 C4_prompt_literal_is_left_in_place); reflexivity.
Defined.

(** What [meta:type:tagName] reads: the key built from the type and from the
    first of the pieces of the tag name between colons. *)
Lemma split_char_cons (c : ascii) (s : string) :
  exists piece rest, Js.split_char c s = piece :: rest.
Proof.
  induction s as [| d s (piece & rest & IH)]; simpl; [eauto |].
  destruct (Ascii.eqb d c); [eauto |]. rewrite IH. eauto.
Qed.

Lemma resolve_meta_reads_first_piece (t : string) (ctx : Context)
    (metadata : list (string * Value)) :
  assoc "metadata" ctx = Some (VObj metadata) ->
  VariableProcessor.resolve ("meta:" +:+ "property" +:+ ":" +:+ t) ctx
  = nullish_or
      (getProp (VObj metadata)
         ("meta_property_" +:+ hd "" (Js.split_char ":" t)))
      (VStr "")
  /\ VariableProcessor.resolve ("meta:" +:+ "name" +:+ ":" +:+ t) ctx
     = nullish_or
         (getProp (VObj metadata)
            ("meta_name_" +:+ hd "" (Js.split_char ":" t)))
         (VStr "").
Proof.
  intros Hmeta.
  assert (Hresolve : forall rest : string,
             VariableProcessor.resolve ("meta:" +:+ rest) ctx
             = VariableProcessor.resolveMeta rest ctx).
  { intros rest. unfold VariableProcessor.resolve.
    replace (Js.startsWith ("meta:" +:+ rest) (String Js.dquote ""))
      with false by reflexivity.
    rewrite (startsWith_append "meta:" rest). cbn [andb].
    change 5 with (Z.of_nat (String.length "meta:")).
    rewrite slice_from_append. reflexivity. }
  rewrite !Hresolve. unfold VariableProcessor.resolveMeta.
  change (getProp (VObj ctx) "metadata")
    with (default VUndefined (assoc "metadata" ctx)).
  rewrite Hmeta. cbn [from_option id truthy negb].
  change (Js.split_char ":" ("property" +:+ ":" +:+ t))
    with ("property" :: Js.split_char ":" t).
  change (Js.split_char ":" ("name" +:+ ":" +:+ t))
    with ("name" :: Js.split_char ":" t).
  destruct (split_char_cons ":" t) as (piece & rest & ->).
  split; reflexivity.
Qed.

(** C5: [meta:type:tagName] is said to read [metadata["meta_type_tagName"]]
    also for a tag name that holds a colon, such as [og:title].  The code
    takes the second of the pieces between colons as the name, so
    [meta:property:og:title] reads [metadata["meta_property_og"]]: the value
    stored for the tag is not found, and the value of another key is. *)
Theorem C5_meta_tag_name_with_colon :
  VariableProcessor.resolve "meta:property:og:title"
    [("metadata", VObj [("meta_property_og:title", VStr "Title")])]
  = VStr ""
  /\ VariableProcessor.resolve "meta:property:og:title"
       [("metadata", VObj [("meta_property_og:title", VStr "Title");
                           ("meta_property_og", VStr "other")])]
     = VStr "other".
Proof. split; reflexivity. Qed.

Lemma getProp_own (props : list (string * Value)) (key : string) :
  getProp (VObj props) key = default VUndefined (assoc key props).
Proof. reflexivity. Qed.

Lemma resolve_selector (s : string) (ctx : Context) :
  VariableProcessor.resolve ("selector:" +:+ s) ctx
  = VariableProcessor.resolveSelector s ctx.
Proof.
  unfold VariableProcessor.resolve.
  replace (Js.startsWith ("selector:" +:+ s) (String Js.dquote ""))
    with false by reflexivity.
  replace (Js.startsWith ("selector:" +:+ s) "meta:")
    with false by reflexivity.
  rewrite (startsWith_append "selector:" s). cbn [andb].
  change 9 with (Z.of_nat (String.length "selector:")).
  rewrite slice_from_append. reflexivity.
Qed.

Lemma resolve_selectorHtml (s : string) (ctx : Context) :
  VariableProcessor.resolve ("selectorHtml:" +:+ s) ctx
  = VariableProcessor.resolveSelectorHtml s ctx.
Proof.
  unfold VariableProcessor.resolve.
  replace (Js.startsWith ("selectorHtml:" +:+ s) (String Js.dquote ""))
    with false by reflexivity.
  replace (Js.startsWith ("selectorHtml:" +:+ s) "meta:")
    with false by reflexivity.
  replace (Js.startsWith ("selectorHtml:" +:+ s) "selector:")
    with false by reflexivity.
  rewrite (startsWith_append "selectorHtml:" s). cbn [andb].
  change 13 with (Z.of_nat (String.length "selectorHtml:")).
  rewrite slice_from_append. reflexivity.
Qed.

(** C6, as the code has it: for every selector [s] that is not the name of
    a member every object inherits from [Object.prototype], [selector:s]
    resolves to the value stored at [context._selectors[s]] when that value
    is truthy, and to the empty string when the key is missing or the stored
    value is falsy ([false], [0], [null], [undefined], the empty string);
    [selectorHtml:s] does the same against [context._selectorsHtml]. *)
Theorem C6_selector_lookup_returns_truthy_values :
  forall (s : string) (ctx : Context) (table : list (string * Value)),
    inherited_name s = false ->
    (assoc "_selectors" ctx = Some (VObj table) ->
     VariableProcessor.resolve ("selector:" +:+ s) ctx
     = Spec.truthy_or_empty (assoc s table))
    /\ (assoc "_selectorsHtml" ctx = Some (VObj table) ->
        VariableProcessor.resolve ("selectorHtml:" +:+ s) ctx
        = Spec.truthy_or_empty (assoc s table)).
Proof.
  intros s ctx table _. split; intros Htable.
  - rewrite resolve_selector. unfold VariableProcessor.resolveSelector.
    rewrite !getProp_own, Htable. cbn [from_option id truthy andb].
    rewrite getProp_own.
    destruct (assoc s table) as [v |]; cbn [from_option id Spec.truthy_or_empty truthy];
      [| reflexivity].
    destruct (truthy v); reflexivity.
  - rewrite resolve_selectorHtml.
    unfold VariableProcessor.resolveSelectorHtml.
    rewrite !getProp_own, Htable. cbn [from_option id truthy andb].
    rewrite getProp_own.
    destruct (assoc s table) as [v |]; cbn [from_option id Spec.truthy_or_empty truthy];
      [| reflexivity].
    destruct (truthy v); reflexivity.
Qed.

Lemma C6_selector_lookup_witness :
  VariableProcessor.resolve ("selector:" +:+ "article h1")
    [("title", VStr "t");
     ("_selectors", VObj [("article h1", VArr [VStr "Heading"])])]
  = Spec.truthy_or_empty
      (assoc "article h1" [("article h1", VArr [VStr "Heading"])]).
Proof.
  apply (proj1 (C6_selector_lookup_returns_truthy_values "article h1"
                  [("title", VStr "t");
                   ("_selectors", VObj [("article h1", VArr [VStr "Heading"])])]
                  [("article h1", VArr [VStr "Heading"])] eq_refl)).
  reflexivity.
Defined.

(** C6 as stated fails: a stored [0] is present under its key, and the
    resolver returns the empty string, not the stored value. *)
Lemma C6_stored_zero_is_not_returned :
  assoc "h1" [("h1", VNum 0)] = Some (VNum 0)
  /\ VariableProcessor.resolve "selector:h1"
       [("_selectors", VObj [("h1", VNum 0)])]
     = VStr ""
  /\ VStr "" <> VNum 0.
Proof. split; [reflexivity | split; [reflexivity | discriminate]]. Qed.

Lemma lookup_capitalize :
  FilterProcessor.builtinFilters !! "capitalize"
  = Some FilterProcessor.Builtin.capitalize.
Proof. vm_compute. reflexivity. Qed.

(** C7, as the code has it: for every string [s] of ASCII characters,
    [capitalize] upper-cases the first character of [s] and lower-cases
    every other character. *)
Theorem C7_capitalize_lowers_the_rest :
  forall s : string,
    Js.all_chars is_ascii s = true ->
    FilterProcessor.apply FilterProcessor.builtinFilters "capitalize"
      (VStr s) []
    = mret (VStr match s with
                 | EmptyString => EmptyString
                 | String c rest =>
                     String (Js.upper_char c) (Js.toLowerCase rest)
                 end).
Proof.
  intros s _. unfold FilterProcessor.apply. rewrite lookup_capitalize.
  unfold FilterProcessor.Builtin.capitalize, lift, mret, Eff_ret, ret.
  do 3 f_equal. destruct s as [| c rest]; [reflexivity |].
  change (ToString (VStr (String c rest))) with (String c "" +:+ rest).
  change 1 with (Z.of_nat (String.length (String c ""))).
  rewrite slice_from_append. reflexivity.
Qed.

Lemma C7_capitalize_witness :
  FilterProcessor.apply FilterProcessor.builtinFilters "capitalize"
    (VStr "hELLO wORLD") []
  = mret (VStr match "hELLO wORLD" with
               | EmptyString => EmptyString
               | String c rest =>
                   String (Js.upper_char c) (Js.toLowerCase rest)
               end).
Proof.
  apply (C7_capitalize_lowers_the_rest "hELLO wORLD"). reflexivity.
Defined.

(** C7 as stated fails: the characters after the first do not stay as they
    are. *)
Lemma C7_capitalize_changes_the_rest :
  FilterProcessor.apply FilterProcessor.builtinFilters "capitalize"
    (VStr "hELLO wORLD") []
  = mret (VStr "Hello world")
  /\ VStr "Hello world" <> VStr (Spec.capitalize_first_only "hELLO wORLD").
Proof. split; [vm_compute; reflexivity | discriminate]. Qed.

(** C8: for every filter name that is not in the registry, every value and
    every argument list, [apply] returns the value unchanged; it writes one
    warning and throws nothing; so [render("{{a|nosuchfilter}}", {a: "z"})]
    is ["z"]. *)
Theorem C8_unknown_filter_is_a_no_op :
  (forall (filters : gmap string FilterFunction) (n : string) (v : Value)
          (args : list string),
      filters !! n = None ->
      FilterProcessor.apply filters n v args
      = (["Unknown filter: " +:+ n], Returns v))
  /\ engine_render "{{a|nosuchfilter}}" [("a", VStr "z")]
     = (["Unknown filter: nosuchfilter"], Returns "z").
Proof.
  split; [| vm_compute; reflexivity].
  intros filters n v args Hnone. unfold FilterProcessor.apply.
  rewrite Hnone. reflexivity.
Qed.

Lemma C8_unknown_filter_witness :
  FilterProcessor.apply FilterProcessor.builtinFilters "markdown"
    (VArr [VNum 1; VStr "b"]) ["x"; "y"]
  = (["Unknown filter: " +:+ "markdown"], Returns (VArr [VNum 1; VStr "b"])).
Proof.
  apply (proj1 C8_unknown_filter_is_a_no_op). vm_compute. reflexivity.
Defined.

(** C9: for every template that contains no placeholder and every context,
    [render] returns the template itself (and warns of nothing). *)
Theorem C9_render_is_identity_without_placeholder :
  forall (filters : gmap string FilterFunction) (template : string)
         (ctx : Context),
    ~ Spec.has_placeholder template ->
    TemplateEngine.render filters template ctx = mret template.
Proof.
  intros filters template ctx Hnone. unfold TemplateEngine.render.
  apply render_no_placeholder; [reflexivity |].
  destruct (Spec.find_placeholder template) eqn:Hfind; [| reflexivity].
  exfalso. apply Hnone. apply find_placeholder_sound. exact Hfind.
Qed.

Lemma C9_render_identity_witness :
  TemplateEngine.render FilterProcessor.builtinFilters
    "a {{}} b {c} }} {{ d" [("a", VStr "x")]
  = mret "a {{}} b {c} }} {{ d".
Proof.
  apply C9_render_is_identity_without_placeholder.
  intros H. apply find_placeholder_complete in H. discriminate H.
Defined.

(** C10: when a prompt literal carries a filter chain, the filters are
    applied to the placeholder text that [resolve] returns, before the
    substitution; [render('{{"x"|upper}}', ctx)] is ['{{"X"}}'] for every
    context. *)
Theorem C10_filters_apply_to_prompt_literal_text :
  (forall (filters : gmap string FilterFunction) (expression literal : string)
          (chain : list string) (ctx : Context),
      TemplateEngine.parseExpression expression = literal :: chain ->
      Js.startsWith literal (String Js.dquote "") = true ->
      Js.endsWith literal (String Js.dquote "") = true ->
      TemplateEngine.processExpression filters expression ctx
      = (value ← TemplateEngine.apply_filters filters chain
                   (VStr ("{{" +:+ literal +:+ "}}"));
         mret (TemplateEngine.stringify value)))
  /\ (forall ctx : Context,
         engine_render (Js.dq "{{`x`|upper}}") ctx = mret (Js.dq "{{`X`}}")).
Proof.
  split.
  - intros filters expression literal chain ctx Hparse Hs He.
    unfold TemplateEngine.processExpression. rewrite Hparse.
    unfold VariableProcessor.resolve. rewrite Hs, He. reflexivity.
  - intros ctx. vm_compute. reflexivity.
Qed.

Lemma C10_prompt_literal_filter_witness :
  TemplateEngine.processExpression FilterProcessor.builtinFilters
    (Js.dq "`a summary of the page`|blockquote") []
  = (value ← TemplateEngine.apply_filters FilterProcessor.builtinFilters
               ["blockquote"]
               (VStr ("{{" +:+ Js.dq "`a summary of the page`" +:+ "}}"));
     mret (TemplateEngine.stringify value)).
Proof.
  apply (proj1 C10_filters_apply_to_prompt_literal_text); reflexivity.
Defined.

(** * Further properties of the code *)

Example sanitize_a_title :
  FileName.sanitizeFileName "  What?  A <b>title</b>:	part 1/2 "
  = "What A btitleb part 12".
Proof. vm_compute. reflexivity. Qed.
Example count_words_in_html :
  ContentExtractor.countWords "<p>one  two</p><br/>three un<b>bold</b> <"
  = 6%nat.
Proof. vm_compute. reflexivity. Qed.
Example count_no_words : ContentExtractor.countWords " <p> </p> " = 0%nat.
Proof. vm_compute. reflexivity. Qed.

(** ** More about strings *)

Lemma all_chars_append (p : ascii -> bool) (a b : string) :
  Js.all_chars p (a +:+ b) = Js.all_chars p a && Js.all_chars p b.
Proof.
  induction a as [| c a IH]; simpl; [reflexivity |].
  rewrite IH. apply andb_assoc.
Qed.

Lemma all_chars_weaken (p q : ascii -> bool) (s : string) :
  (forall c, p c = true -> q c = true) ->
  Js.all_chars p s = true -> Js.all_chars q s = true.
Proof.
  intros Hpq. induction s as [| c s IH]; simpl; [reflexivity |].
  intros H. apply andb_true_iff in H as [Hc Hs].
  rewrite (Hpq c Hc), (IH Hs). reflexivity.
Qed.

Lemma append_assoc (a b c : string) : (a +:+ b) +:+ c = a +:+ b +:+ c.
Proof.
  induction a as [| x a IH]; [reflexivity |].
  change (String x ((a +:+ b) +:+ c) = String x (a +:+ b +:+ c)).
  f_equal. exact IH.
Qed.

Lemma append_empty_r (a : string) : a +:+ "" = a.
Proof.
  induction a as [| x a IH]; [reflexivity |].
  change (String x (a +:+ "") = String x a). f_equal. exact IH.
Qed.

Lemma prefix_empty (s : string) : String.prefix "" s = true.
Proof. destruct s; reflexivity. Qed.

Lemma substring_before (a b : string) :
  String.substring 0 (String.length a) (a +:+ b) = a.
Proof.
  induction a as [| c a IH]; simpl; [destruct b; reflexivity |].
  now rewrite IH.
Qed.

Lemma substring_middle (a m b : string) :
  String.substring (String.length a) (String.length m) (a +:+ m +:+ b) = m.
Proof.
  induction a as [| c a IH]; [exact (substring_before m b) | exact IH].
Qed.

(** [(a + m + b).slice(a.length, a.length + m.length)] is [m]. *)
Lemma slice_middle (a m b : string) :
  Js.slice (a +:+ m +:+ b) (Z.of_nat (String.length a))
    (Z.of_nat (String.length a + String.length m))
  = m.
Proof.
  unfold Js.slice, Js.clamp_index, Js.str_length.
  rewrite !length_append.
  set (x := String.length a). set (y := String.length m).
  set (z := String.length b).
  destruct (Z.ltb_spec (Z.of_nat x) 0) as [Hneg | _]; [lia |].
  destruct (Z.ltb_spec (Z.of_nat (x + y)) 0) as [Hneg | _]; [lia |].
  replace (Z.to_nat (Z.min (Z.of_nat x) (Z.of_nat (x + (y + z)))))
    with x by lia.
  replace (Z.to_nat (Z.max (Z.min (Z.of_nat (x + y)) (Z.of_nat (x + (y + z)))
                            - Z.min (Z.of_nat x) (Z.of_nat (x + (y + z)))) 0))
    with y by lia.
  apply substring_middle.
Qed.

(** [(m + c).slice(0, -1)] is [m]. *)
Lemma slice_drop_last (m : string) (c : ascii) :
  Js.slice (m +:+ String c "") 0 (-1) = m.
Proof.
  unfold Js.slice, Js.clamp_index, Js.str_length.
  rewrite length_append. simpl String.length.
  set (x := String.length m).
  change (0 <? 0) with false. change (-1 <? 0) with true. cbv iota.
  replace (Z.to_nat (Z.min 0 (Z.of_nat (x + 1)))) with O by lia.
  replace (Z.to_nat (Z.max (Z.max (Z.of_nat (x + 1) + -1) 0
                            - Z.min 0 (Z.of_nat (x + 1))) 0))
    with x by lia.
  apply substring_before.
Qed.

Lemma endsWith_append (a p : string) : Js.endsWith (a +:+ p) p = true.
Proof.
  unfold Js.endsWith, Js.str_length. rewrite length_append.
  apply andb_true_iff. split; [apply Nat.leb_le; lia |].
  replace (String.length a + String.length p - String.length p)%nat
    with (String.length a) by lia.
  rewrite substring_after. apply String.eqb_refl.
Qed.

(** A prefix holds only characters of the string. *)
Lemma startsWith_all_chars (p : ascii -> bool) (s pre : string) :
  Js.startsWith s pre = true ->
  Js.all_chars p s = true -> Js.all_chars p pre = true.
Proof.
  unfold Js.startsWith. revert s.
  induction pre as [| c pre IH]; intros s Hpre Hs; [reflexivity |].
  destruct s as [| d s]; [discriminate |]. simpl in Hpre.
  destruct (ascii_dec c d) as [<- |]; [| discriminate].
  simpl in Hs. apply andb_true_iff in Hs as [Hc Hs].
  simpl. rewrite Hc. exact (IH s Hpre Hs).
Qed.

Lemma indexOf_lacks (c : ascii) (s : string) :
  lacks c s -> Js.indexOf s c = None.
Proof.
  unfold lacks. induction s as [| d s IH]; simpl; [reflexivity |].
  intros H. apply andb_true_iff in H as [Hd Hs].
  apply negb_true_iff in Hd. rewrite Hd, (IH Hs). reflexivity.
Qed.

Lemma indexOf_first (c : ascii) (a b : string) :
  lacks c a -> Js.indexOf (a +:+ String c b) c = Some (String.length a).
Proof.
  unfold lacks. induction a as [| d a IH]; simpl.
  - intros _. rewrite Ascii.eqb_refl. reflexivity.
  - intros H. apply andb_true_iff in H as [Hd Ha].
    apply negb_true_iff in Hd. rewrite Hd, (IH Ha). reflexivity.
Qed.

Lemma split_char_lacks (c : ascii) (s : string) :
  lacks c s -> Js.split_char c s = [s].
Proof.
  unfold lacks. induction s as [| d s IH]; simpl; [reflexivity |].
  intros H. apply andb_true_iff in H as [Hd Hs].
  apply negb_true_iff in Hd. rewrite Hd, (IH Hs). reflexivity.
Qed.

Lemma split_char_first (c : ascii) (a b : string) :
  lacks c a ->
  Js.split_char c (a +:+ String c b) = a :: Js.split_char c b.
Proof.
  unfold lacks. induction a as [| d a IH]; simpl.
  - intros _. rewrite Ascii.eqb_refl. reflexivity.
  - intros H. apply andb_true_iff in H as [Hd Ha].
    apply negb_true_iff in Hd. rewrite Hd, (IH Ha). reflexivity.
Qed.

(** A word character is none of the characters with a meaning in a path, an
    expression or a prefix. *)
Lemma word_is_plain (c : ascii) :
  Js.is_word c = true ->
  c <> "."%char /\ c <> "["%char /\ c <> ":"%char /\ c <> "|"%char
  /\ c <> "("%char /\ c <> ")"%char /\ c <> Js.dquote /\ c <> Js.squote
  /\ c <> "@"%char /\ Js.is_space c = false.
Proof.
  destruct c as [[] [] [] [] [] [] [] []]; vm_compute; intros H;
    try discriminate H; repeat split; discriminate.
Qed.

Lemma word_lacks (c : ascii) (s : string) :
  Js.is_word c = false -> Js.all_chars Js.is_word s = true -> lacks c s.
Proof.
  intros Hc. apply all_chars_weaken. intros d Hd.
  apply negb_true_iff. apply Ascii.eqb_neq. intros ->. congruence.
Qed.

(** ** More about the variable processor *)

Lemma nullish_or_not_nullish (v : Value) :
  isNullish (nullish_or v (VStr "")) = false.
Proof. destruct v; reflexivity. Qed.

Lemma truthy_not_nullish (v : Value) : truthy v = true -> isNullish v = false.
Proof. destruct v; simpl; congruence. Qed.

Lemma resolveProperty_loop_cons (part : string) (rest : list string)
    (current : Value) :
  VariableProcessor.resolveProperty_loop (part :: rest) current
  = if isNullish current then VStr ""
    else
      match VariableProcessor.match_index_notation part with
      | Some (key, index) =>
          match getProp current key with
          | VArr items =>
              if String.eqb index "*" then VArr items
              else VariableProcessor.resolveProperty_loop rest
                     (nth (VariableProcessor.parseInt index) items VUndefined)
          | other => VariableProcessor.resolveProperty_loop rest other
          end
      | None =>
          VariableProcessor.resolveProperty_loop rest (getProp current part)
      end.
Proof.
  cbn [VariableProcessor.resolveProperty_loop].
  destruct (isNullish current); [reflexivity |].
  destruct (VariableProcessor.match_index_notation part) as [[key index] |];
    [| reflexivity].
  destruct (getProp current key); reflexivity.
Qed.

Lemma resolveProperty_loop_not_nullish (parts : list string) :
  forall current : Value,
    isNullish (VariableProcessor.resolveProperty_loop parts current) = false.
Proof.
  induction parts as [| part rest IH]; intros current.
  - apply nullish_or_not_nullish.
  - rewrite resolveProperty_loop_cons.
    destruct (isNullish current); [reflexivity |].
    destruct (VariableProcessor.match_index_notation part) as [[key index] |];
      [| apply IH].
    destruct (getProp current key); try apply IH.
    destruct (String.eqb index "*"); [reflexivity | apply IH].
Qed.

Lemma schema_search_not_nullish (expression : string) (types : list Value) :
  isNullish (VariableProcessor.schema_search expression types) = false.
Proof.
  induction types as [| type rest IH]; simpl; [reflexivity |].
  destruct (VariableProcessor.isObject type); [| exact IH].
  destruct (VariableProcessor.notEmptyString _); [| exact IH].
  apply resolveProperty_loop_not_nullish.
Qed.

(** X1: whatever the name and the context, [resolve] returns neither [null]
    nor [undefined]: a missing value comes out as the empty string. *)
Theorem resolve_is_never_nullish :
  forall (name : string) (ctx : Context),
    isNullish (VariableProcessor.resolve name ctx) = false.
Proof.
  intros name ctx. unfold VariableProcessor.resolve.
  destruct (_ && _); [reflexivity |].
  destruct (Js.startsWith name "meta:").
  { unfold VariableProcessor.resolveMeta.
    destruct (negb _); [reflexivity |].
    destruct (Js.split_char ":" _) as [| type [| tag rest]];
      try apply nullish_or_not_nullish.
    destruct (_ || _); apply nullish_or_not_nullish. }
  destruct (Js.startsWith name "selector:").
  { unfold VariableProcessor.resolveSelector.
    destruct (truthy (getProp (VObj ctx) "_selectors")); [| reflexivity].
    destruct (truthy (getProp _ _)) eqn:Ht; [| reflexivity].
    apply truthy_not_nullish. exact Ht. }
  destruct (Js.startsWith name "selectorHtml:").
  { unfold VariableProcessor.resolveSelectorHtml.
    destruct (truthy (getProp (VObj ctx) "_selectorsHtml")); [| reflexivity].
    destruct (truthy (getProp _ _)) eqn:Ht; [| reflexivity].
    apply truthy_not_nullish. exact Ht. }
  destruct (Js.startsWith name "schema:").
  { unfold VariableProcessor.resolveSchema.
    destruct (negb _); [reflexivity |].
    destruct (Js.startsWith _ "@"); [| apply schema_search_not_nullish].
    destruct (Js.indexOf _ ":"); [| reflexivity].
    destruct (truthy _); [| reflexivity].
    apply resolveProperty_loop_not_nullish. }
  apply resolveProperty_loop_not_nullish.
Qed.

Lemma not_startsWith_word (key pre : string) :
  Js.all_chars Js.is_word key = true ->
  Js.all_chars Js.is_word pre = false ->
  Js.startsWith key pre = false.
Proof.
  intros Hkey Hpre. destruct (Js.startsWith key pre) eqn:Hs; [| reflexivity].
  rewrite (startsWith_all_chars Js.is_word key pre Hs Hkey) in Hpre.
  discriminate.
Qed.

Lemma word_lacks_dot (s : string) :
  Js.all_chars Js.is_word s = true -> lacks "." s.
Proof. apply word_lacks. reflexivity. Qed.

Lemma word_lacks_bracket (s : string) :
  Js.all_chars Js.is_word s = true -> lacks "[" s.
Proof. apply word_lacks. reflexivity. Qed.

Lemma match_index_notation_lacks (part : string) :
  lacks "[" part -> VariableProcessor.match_index_notation part = None.
Proof.
  intros H. unfold VariableProcessor.match_index_notation.
  rewrite (indexOf_lacks "[" part H). reflexivity.
Qed.

(** A name made of word characters is a property of the context. *)
Lemma resolve_plain_key (key : string) (ctx : Context) :
  Js.all_chars Js.is_word key = true ->
  VariableProcessor.resolve key ctx
  = nullish_or (default VUndefined (assoc key ctx)) (VStr "").
Proof.
  intros Hkey. unfold VariableProcessor.resolve.
  rewrite (not_startsWith_word key (String Js.dquote "") Hkey eq_refl).
  rewrite (not_startsWith_word key "meta:" Hkey eq_refl).
  rewrite (not_startsWith_word key "selector:" Hkey eq_refl).
  rewrite (not_startsWith_word key "selectorHtml:" Hkey eq_refl).
  rewrite (not_startsWith_word key "schema:" Hkey eq_refl).
  cbn [andb]. unfold VariableProcessor.resolveProperty.
  rewrite (split_char_lacks "." key (word_lacks_dot key Hkey)).
  rewrite resolveProperty_loop_cons. cbn [isNullish].
  rewrite (match_index_notation_lacks key (word_lacks_bracket key Hkey)).
  reflexivity.
Qed.

(** X2: a name made of letters, digits and underscores, and not the name of
    a member inherited from [Object.prototype], resolves to the context's
    property of that name, and to the empty string when the property is
    missing, [null] or [undefined]. *)
Theorem resolve_plain_key_or_empty :
  forall (key : string) (ctx : Context),
    Js.all_chars Js.is_word key = true ->
    inherited_name key = false ->
    VariableProcessor.resolve key ctx
    = match assoc key ctx with
      | Some VNull | Some VUndefined | None => VStr ""
      | Some v => v
      end.
Proof.
  intros key ctx Hkey _. rewrite (resolve_plain_key key ctx Hkey).
  destruct (assoc key ctx) as [[] |]; reflexivity.
Qed.

Lemma resolve_plain_key_or_empty_witness :
  VariableProcessor.resolve "no_such_key2" [("title", VStr "t")] = VStr "".
Proof.
  exact (resolve_plain_key_or_empty "no_such_key2" [("title", VStr "t")]
           eq_refl eq_refl).
Defined.

(** X3: on an object, a path [a.b], where [a] holds neither a dot nor a
    bracket and is not the name of a member inherited from
    [Object.prototype], is the path [b] followed from the object's property
    [a]; from [null] or [undefined] the result is the empty string. *)
Theorem resolveProperty_follows_the_path :
  forall (a b : string) (props : list (string * Value)),
    lacks "." a -> lacks "[" a -> inherited_name a = false ->
    VariableProcessor.resolveProperty (a +:+ "." +:+ b) (VObj props)
    = VariableProcessor.resolveProperty b
        (default VUndefined (assoc a props))
    /\ VariableProcessor.resolveProperty (a +:+ "." +:+ b) VNull = VStr ""
    /\ VariableProcessor.resolveProperty (a +:+ "." +:+ b) VUndefined
       = VStr "".
Proof.
  intros a b props Hdot Hbracket _.
  unfold VariableProcessor.resolveProperty.
  change (a +:+ "." +:+ b) with (a +:+ String "." b).
  rewrite (split_char_first "." a b Hdot), !resolveProperty_loop_cons.
  rewrite (match_index_notation_lacks a Hbracket).
  split; [| split]; reflexivity.
Qed.

Lemma resolveProperty_follows_the_path_witness :
  VariableProcessor.resolveProperty ("metadata" +:+ "." +:+ "og.title")
    (VObj [("metadata", VObj [("og", VObj [("title", VStr "T")])])])
  = VariableProcessor.resolveProperty "og.title"
      (default VUndefined
         (assoc "metadata"
            [("metadata", VObj [("og", VObj [("title", VStr "T")])])]))
  /\ VariableProcessor.resolveProperty ("metadata" +:+ "." +:+ "og.title")
       VNull
     = VStr ""
  /\ VariableProcessor.resolveProperty ("metadata" +:+ "." +:+ "og.title")
       VUndefined
     = VStr "".
Proof.
  apply resolveProperty_follows_the_path; reflexivity.
Defined.

Lemma digit_is_word (c : ascii) : Js.is_digit c = true -> Js.is_word c = true.
Proof.
  unfold Js.is_word. intros ->. rewrite orb_true_r. reflexivity.
Qed.

(** The index notation is recognised: a key of word characters, then a star
    or digits between brackets. *)
Lemma match_index_notation_complete (key index : string) :
  key <> "" -> Js.all_chars Js.is_word key = true ->
  index = "*" \/ (index <> "" /\ Js.all_chars Js.is_digit index = true) ->
  VariableProcessor.match_index_notation (key +:+ "[" +:+ index +:+ "]")
  = Some (key, index).
Proof.
  intros Hne Hkey Hindex. unfold VariableProcessor.match_index_notation.
  change (key +:+ "[" +:+ index +:+ "]")
    with (key +:+ String "[" (index +:+ "]")).
  rewrite (indexOf_first "[" key (index +:+ "]") (word_lacks_bracket key Hkey)).
  rewrite substring_before.
  replace (key +:+ String "[" (index +:+ "]"))
    with ((key +:+ "[") +:+ (index +:+ "]")) by apply append_assoc.
  replace (Z.of_nat (String.length key) + 1)
    with (Z.of_nat (String.length (key +:+ "[")))
    by (rewrite length_append; simpl String.length; lia).
  rewrite slice_from_append, (endsWith_append index "]"), Hkey.
  rewrite (slice_drop_last index "]").
  apply String.eqb_neq in Hne. rewrite Hne. cbn [negb andb].
  destruct Hindex as [-> | [Hi Hdigits]]; [reflexivity |].
  apply String.eqb_neq in Hi. rewrite Hi, Hdigits.
  destruct (String.eqb index "*"); reflexivity.
Qed.

Lemma index_segment_lacks_dot (key index : string) :
  Js.all_chars Js.is_word key = true ->
  index = "*" \/ (index <> "" /\ Js.all_chars Js.is_digit index = true) ->
  lacks "." (key +:+ "[" +:+ index +:+ "]").
Proof.
  intros Hkey Hindex.
  assert (Hi : lacks "." index).
  { destruct Hindex as [-> | [_ Hdigits]]; [reflexivity |].
    apply word_lacks_dot.
    exact (all_chars_weaken _ _ index digit_is_word Hdigits). }
  pose proof (word_lacks_dot key Hkey) as Hk.
  unfold lacks in *. rewrite !all_chars_append, Hk, Hi. reflexivity.
Qed.

(** X4: [key[*]] returns the whole array stored under [key], and the
    segments of the path that follow it are not looked at. *)
Theorem resolveProperty_star_returns_the_array :
  forall (key rest : string) (obj : Value) (items : list Value),
    key <> "" -> Js.all_chars Js.is_word key = true ->
    isNullish obj = false -> getProp obj key = VArr items ->
    VariableProcessor.resolveProperty (key +:+ "[" +:+ "*" +:+ "]") obj
    = VArr items
    /\ VariableProcessor.resolveProperty
         ((key +:+ "[" +:+ "*" +:+ "]") +:+ "." +:+ rest) obj
       = VArr items.
Proof.
  intros key rest obj items Hne Hkey Hobj Hget.
  pose proof (match_index_notation_complete key "*" Hne Hkey (or_introl eq_refl))
    as Hmatch.
  pose proof (index_segment_lacks_dot key "*" Hkey (or_introl eq_refl))
    as Hdot.
  unfold VariableProcessor.resolveProperty. split.
  - rewrite (split_char_lacks "." _ Hdot), resolveProperty_loop_cons.
    rewrite Hobj, Hmatch, Hget. reflexivity.
  - change ((key +:+ "[" +:+ "*" +:+ "]") +:+ "." +:+ rest)
      with ((key +:+ "[" +:+ "*" +:+ "]") +:+ String "." rest).
    rewrite (split_char_first "." _ rest Hdot), resolveProperty_loop_cons.
    rewrite Hobj, Hmatch, Hget. reflexivity.
Qed.

Lemma resolveProperty_star_witness :
  VariableProcessor.resolveProperty ("tags" +:+ "[" +:+ "*" +:+ "]")
    (VObj [("tags", VArr [VStr "a"; VStr "b"])])
  = VArr [VStr "a"; VStr "b"]
  /\ VariableProcessor.resolveProperty
       (("tags" +:+ "[" +:+ "*" +:+ "]") +:+ "." +:+ "name.first")
       (VObj [("tags", VArr [VStr "a"; VStr "b"])])
     = VArr [VStr "a"; VStr "b"].
Proof.
  apply resolveProperty_star_returns_the_array;
    [discriminate | reflexivity | reflexivity | reflexivity].
Defined.

(** X5: [key[N]] gives the N-th element of the array stored under [key], and
    the empty string when N is past the end of the array. *)
Theorem resolveProperty_index_reads_the_element :
  forall (key digits : string) (obj : Value) (items : list Value),
    key <> "" -> Js.all_chars Js.is_word key = true ->
    digits <> "" -> Js.all_chars Js.is_digit digits = true ->
    isNullish obj = false -> getProp obj key = VArr items ->
    VariableProcessor.resolveProperty (key +:+ "[" +:+ digits +:+ "]") obj
    = nullish_or (nth (VariableProcessor.parseInt digits) items VUndefined)
        (VStr "")
    /\ ((length items <= VariableProcessor.parseInt digits)%nat ->
        VariableProcessor.resolveProperty (key +:+ "[" +:+ digits +:+ "]") obj
        = VStr "").
Proof.
  intros key digits obj items Hne Hkey Hd Hdigits Hobj Hget.
  assert (Hindex : digits = "*"
                   \/ (digits <> "" /\ Js.all_chars Js.is_digit digits = true))
    by (right; split; assumption).
  pose proof (match_index_notation_complete key digits Hne Hkey Hindex)
    as Hmatch.
  pose proof (index_segment_lacks_dot key digits Hkey Hindex) as Hdot.
  assert (Hstar : String.eqb digits "*" = false).
  { apply String.eqb_neq. intros ->. discriminate Hdigits. }
  assert (Heq : VariableProcessor.resolveProperty
                  (key +:+ "[" +:+ digits +:+ "]") obj
                = nullish_or
                    (nth (VariableProcessor.parseInt digits) items VUndefined)
                    (VStr "")).
  { unfold VariableProcessor.resolveProperty.
    rewrite (split_char_lacks "." _ Hdot), resolveProperty_loop_cons.
    rewrite Hobj, Hmatch, Hget, Hstar. reflexivity. }
  split; [exact Heq |].
  intros Hpast. rewrite Heq, (nth_overflow items VUndefined Hpast).
  reflexivity.
Qed.

Lemma resolveProperty_index_witness :
  VariableProcessor.resolveProperty ("authors" +:+ "[" +:+ "01" +:+ "]")
    (VObj [("authors", VArr [VStr "Ann"; VStr "Bob"])])
  = nullish_or
      (nth (VariableProcessor.parseInt "01") [VStr "Ann"; VStr "Bob"]
         VUndefined)
      (VStr "")
  /\ ((length [VStr "Ann"; VStr "Bob"] <= VariableProcessor.parseInt "01")%nat ->
      VariableProcessor.resolveProperty ("authors" +:+ "[" +:+ "01" +:+ "]")
        (VObj [("authors", VArr [VStr "Ann"; VStr "Bob"])])
      = VStr "").
Proof.
  apply resolveProperty_index_reads_the_element;
    try discriminate; reflexivity.
Defined.

(** X6: on an object, when the value stored under [key] is no array, the
    index of [key[N]] and of [key[*]] is ignored: the result is the value
    itself, or the empty string for [null] and [undefined]; and when the
    object has no property [key], and [key] names no member inherited from
    [Object.prototype], the result is the empty string. *)
Theorem resolveProperty_index_ignored_off_arrays :
  forall (key index : string) (props : list (string * Value)),
    key <> "" -> Js.all_chars Js.is_word key = true ->
    index = "*" \/ (index <> "" /\ Js.all_chars Js.is_digit index = true) ->
    (forall v : Value,
        assoc key props = Some v -> isArray v = false ->
        VariableProcessor.resolveProperty (key +:+ "[" +:+ index +:+ "]")
          (VObj props)
        = nullish_or v (VStr ""))
    /\ (assoc key props = None -> inherited_name key = false ->
        VariableProcessor.resolveProperty (key +:+ "[" +:+ index +:+ "]")
          (VObj props)
        = VStr "").
Proof.
  intros key index props Hne Hkey Hindex.
  unfold VariableProcessor.resolveProperty.
  rewrite (split_char_lacks "." _ (index_segment_lacks_dot key index Hkey Hindex)).
  rewrite resolveProperty_loop_cons. cbn [isNullish].
  rewrite (match_index_notation_complete key index Hne Hkey Hindex).
  rewrite getProp_own. split.
  - intros v -> Harr. cbn [from_option id].
    destruct v; try reflexivity. discriminate Harr.
  - intros -> _. reflexivity.
Qed.

Lemma resolveProperty_index_ignored_witness :
  VariableProcessor.resolveProperty ("title" +:+ "[" +:+ "3" +:+ "]")
    (VObj [("title", VStr "Heading")])
  = nullish_or (VStr "Heading") (VStr "")
  /\ VariableProcessor.resolveProperty ("author" +:+ "[" +:+ "*" +:+ "]")
       (VObj [("title", VStr "Heading")])
     = VStr "".
Proof.
  split.
  - apply (resolveProperty_index_ignored_off_arrays "title" "3"
             [("title", VStr "Heading")]);
      [discriminate | reflexivity | | reflexivity | reflexivity].
    right. split; [discriminate | reflexivity].
  - apply (resolveProperty_index_ignored_off_arrays "author" "*"
             [("title", VStr "Heading")]);
      [discriminate | reflexivity | left; reflexivity
      | reflexivity | reflexivity].
Defined.

Lemma resolve_meta (expression : string) (ctx : Context) :
  VariableProcessor.resolve ("meta:" +:+ expression) ctx
  = VariableProcessor.resolveMeta expression ctx.
Proof.
  unfold VariableProcessor.resolve.
  replace (Js.startsWith ("meta:" +:+ expression) (String Js.dquote ""))
    with false by reflexivity.
  rewrite (startsWith_append "meta:" expression). cbn [andb].
  change 5 with (Z.of_nat (String.length "meta:")).
  rewrite slice_from_append. reflexivity.
Qed.

Lemma resolve_schema (expression : string) (ctx : Context) :
  VariableProcessor.resolve ("schema:" +:+ expression) ctx
  = VariableProcessor.resolveSchema expression ctx.
Proof.
  unfold VariableProcessor.resolve.
  replace (Js.startsWith ("schema:" +:+ expression) (String Js.dquote ""))
    with false by reflexivity.
  replace (Js.startsWith ("schema:" +:+ expression) "meta:")
    with false by reflexivity.
  replace (Js.startsWith ("schema:" +:+ expression) "selector:")
    with false by reflexivity.
  replace (Js.startsWith ("schema:" +:+ expression) "selectorHtml:")
    with false by reflexivity.
  rewrite (startsWith_append "schema:" expression). cbn [andb].
  change 7 with (Z.of_nat (String.length "schema:")).
  rewrite slice_from_append. reflexivity.
Qed.

(** X7: [schema:@Type:path], where [Type] is not the name of a member
    inherited from [Object.prototype], follows [path] from the entry of
    [_schema] stored under [Type]; an entry that is missing or falsy gives
    the empty string. *)
Theorem resolve_schema_of_a_type :
  forall (type path : string) (ctx : Context)
         (schema : list (string * Value)),
    lacks ":" type -> inherited_name type = false ->
    assoc "_schema" ctx = Some (VObj schema) ->
    VariableProcessor.resolve ("schema:" +:+ "@" +:+ type +:+ ":" +:+ path) ctx
    = match assoc type schema with
      | Some schemaType =>
          if truthy schemaType
          then VariableProcessor.resolveProperty path schemaType
          else VStr ""
      | None => VStr ""
      end.
Proof.
  intros type path ctx schema Htype _ Hschema.
  rewrite resolve_schema. unfold VariableProcessor.resolveSchema.
  rewrite getProp_own, Hschema. cbn [from_option id truthy negb].
  rewrite (startsWith_append "@" (type +:+ ":" +:+ path)).
  assert (Hcolon : Js.indexOf ("@" +:+ type +:+ ":" +:+ path) ":"
                   = Some (S (String.length type))).
  { change ("@" +:+ type +:+ ":" +:+ path)
      with (("@" +:+ type) +:+ String ":" path).
    apply (indexOf_first ":" ("@" +:+ type) path).
    unfold lacks in *. simpl. exact Htype. }
  assert (Hslice : Js.slice ("@" +:+ type +:+ ":" +:+ path) 1
                     (Z.of_nat (S (String.length type)))
                   = type)
    by exact (slice_middle "@" type (":" +:+ path)).
  assert (Hfrom : Js.slice_from ("@" +:+ type +:+ ":" +:+ path)
                    (Z.of_nat (S (String.length type)) + 1)
                  = path).
  { replace ("@" +:+ type +:+ ":" +:+ path)
      with (("@" +:+ type +:+ ":") +:+ path)
      by (rewrite !append_assoc; reflexivity).
    replace (Z.of_nat (S (String.length type)) + 1)
      with (Z.of_nat (String.length ("@" +:+ type +:+ ":")))
      by (rewrite !length_append; simpl String.length; lia).
    apply slice_from_append. }
  rewrite Hcolon, !Hslice, Hfrom, getProp_own.
  destruct (assoc type schema) as [schemaType |];
    cbn [from_option id truthy]; reflexivity.
Qed.

Lemma resolve_schema_of_a_type_witness :
  VariableProcessor.resolve
    ("schema:" +:+ "@" +:+ "Article" +:+ ":" +:+ "author.name")
    [("_schema",
      VObj [("Article", VObj [("author", VObj [("name", VStr "Ann")])])])]
  = match assoc "Article"
            [("Article", VObj [("author", VObj [("name", VStr "Ann")])])] with
    | Some schemaType =>
        if truthy schemaType
        then VariableProcessor.resolveProperty "author.name" schemaType
        else VStr ""
    | None => VStr ""
    end.
Proof.
  apply resolve_schema_of_a_type; reflexivity.
Defined.

Lemma schema_search_skips (expression : string) (skipped rest : list Value) :
  Forall (fun type => VariableProcessor.isObject type = false
                      \/ VariableProcessor.resolveProperty expression type
                         = VStr "") skipped ->
  VariableProcessor.schema_search expression (skipped ++ rest)
  = VariableProcessor.schema_search expression rest.
Proof.
  induction 1 as [| type skipped Hskip _ IH]; [reflexivity |].
  change (VariableProcessor.schema_search expression
            (type :: (skipped ++ rest))
          = VariableProcessor.schema_search expression rest).
  cbn [VariableProcessor.schema_search].
  destruct Hskip as [-> | ->]; [exact IH |].
  destruct (VariableProcessor.isObject type); exact IH.
Qed.

(** X8: [schema:path] without a type follows [path] from every entry of
    [_schema] that is an object, in the order of the entries, and returns the
    first result that is not the empty string; when no entry gives one, the
    result is the empty string. *)
Theorem resolve_schema_first_match :
  forall (expression : string) (ctx : Context)
         (schema : list (string * Value)),
    Js.startsWith expression "@" = false ->
    assoc "_schema" ctx = Some (VObj schema) ->
    let skip (entry : string * Value) :=
      VariableProcessor.isObject entry.2 = false
      \/ VariableProcessor.resolveProperty expression entry.2 = VStr "" in
    (forall (before after : list (string * Value)) (key : string) (type : Value),
        schema = before ++ (key, type) :: after ->
        Forall skip before ->
        VariableProcessor.isObject type = true ->
        VariableProcessor.resolveProperty expression type <> VStr "" ->
        VariableProcessor.resolve ("schema:" +:+ expression) ctx
        = VariableProcessor.resolveProperty expression type)
    /\ (Forall skip schema ->
        VariableProcessor.resolve ("schema:" +:+ expression) ctx = VStr "").
Proof.
  intros expression ctx schema Hat Hschema skip.
  assert (Hsearch : VariableProcessor.resolve ("schema:" +:+ expression) ctx
                    = VariableProcessor.schema_search expression
                        (map snd schema)).
  { rewrite resolve_schema. unfold VariableProcessor.resolveSchema.
    rewrite getProp_own, Hschema. cbn [from_option id truthy negb].
    rewrite Hat. reflexivity. }
  rewrite Hsearch. split.
  - intros before after key type -> Hbefore Hobject Hfound.
    rewrite map_app. rewrite schema_search_skips.
    + cbn [map snd VariableProcessor.schema_search]. rewrite Hobject.
      destruct (VariableProcessor.resolveProperty expression type)
        as [| | | | s | |] eqn:Hv; try reflexivity.
      destruct s; [contradiction | reflexivity].
    + apply Forall_map. exact Hbefore.
  - intros Hall. rewrite <- (app_nil_r (map snd schema)).
    rewrite schema_search_skips; [reflexivity |].
    apply Forall_map. exact Hall.
Qed.

Lemma resolve_schema_first_match_witness :
  VariableProcessor.resolve ("schema:" +:+ "author")
    [("_schema", VObj [("context", VStr "https://schema.org");
                       ("Recipe", VObj [("name", VStr "Pie")]);
                       ("Article", VObj [("author", VStr "Ann")]);
                       ("Person", VObj [("author", VStr "Bob")])])]
  = VariableProcessor.resolveProperty "author" (VObj [("author", VStr "Ann")]).
Proof.
  apply (proj1 (resolve_schema_first_match "author"
                  [("_schema", VObj [("context", VStr "https://schema.org");
                                     ("Recipe", VObj [("name", VStr "Pie")]);
                                     ("Article", VObj [("author", VStr "Ann")]);
                                     ("Person", VObj [("author", VStr "Bob")])])]
                  [("context", VStr "https://schema.org");
                   ("Recipe", VObj [("name", VStr "Pie")]);
                   ("Article", VObj [("author", VStr "Ann")]);
                   ("Person", VObj [("author", VStr "Bob")])]
                  eq_refl eq_refl)
           [("context", VStr "https://schema.org");
            ("Recipe", VObj [("name", VStr "Pie")])]
           [("Person", VObj [("author", VStr "Bob")])]
           "Article" (VObj [("author", VStr "Ann")])).
  - reflexivity.
  - constructor; [left; reflexivity |].
    constructor; [right; reflexivity | constructor].
  - reflexivity.
  - discriminate.
Defined.

(** X9: for a tag name without a colon, [meta:name:tag] and
    [meta:property:tag] read the key [meta_name_tag] or [meta_property_tag]
    of [metadata]; a key that is missing, [null] or [undefined] gives the
    empty string. *)
Theorem resolve_meta_plain_tag :
  forall (type tag : string) (ctx : Context)
         (metadata : list (string * Value)),
    type = "name" \/ type = "property" ->
    lacks ":" tag ->
    assoc "metadata" ctx = Some (VObj metadata) ->
    VariableProcessor.resolve ("meta:" +:+ type +:+ ":" +:+ tag) ctx
    = match assoc ("meta_" +:+ type +:+ "_" +:+ tag) metadata with
      | Some VNull | Some VUndefined | None => VStr ""
      | Some v => v
      end.
Proof.
  intros type tag ctx metadata Htype Htag Hmeta.
  destruct (resolve_meta_reads_first_piece tag ctx metadata Hmeta)
    as [Hproperty Hname].
  rewrite (split_char_lacks ":" tag Htag) in Hproperty, Hname.
  cbn [hd] in Hproperty, Hname.
  destruct Htype as [-> | ->]; [rewrite Hname | rewrite Hproperty];
    rewrite getProp_own.
  - change ("meta_" +:+ "name" +:+ "_" +:+ tag) with ("meta_name_" +:+ tag).
    destruct (assoc ("meta_name_" +:+ tag) metadata) as [[] |]; reflexivity.
  - change ("meta_" +:+ "property" +:+ "_" +:+ tag)
      with ("meta_property_" +:+ tag).
    destruct (assoc ("meta_property_" +:+ tag) metadata) as [[] |];
      reflexivity.
Qed.

Lemma resolve_meta_plain_tag_witness :
  VariableProcessor.resolve ("meta:" +:+ "name" +:+ ":" +:+ "description")
    [("metadata", VObj [("meta_name_description", VStr "About")])]
  = match assoc ("meta_" +:+ "name" +:+ "_" +:+ "description")
            [("meta_name_description", VStr "About")] with
    | Some VNull | Some VUndefined | None => VStr ""
    | Some v => v
    end.
Proof.
  apply resolve_meta_plain_tag; [left; reflexivity | reflexivity | reflexivity].
Defined.

(** X10: a [meta:] expression whose text before the first colon is neither
    [name] nor [property], nor the name of a member inherited from
    [Object.prototype], reads the key of [metadata] that is the whole
    expression, colons included. *)
Theorem resolve_meta_other_key :
  forall (first rest : string) (ctx : Context)
         (metadata : list (string * Value)),
    lacks ":" first -> first <> "name" -> first <> "property" ->
    inherited_name first = false ->
    assoc "metadata" ctx = Some (VObj metadata) ->
    VariableProcessor.resolve ("meta:" +:+ first) ctx
    = nullish_or (default VUndefined (assoc first metadata)) (VStr "")
    /\ VariableProcessor.resolve ("meta:" +:+ first +:+ ":" +:+ rest) ctx
       = nullish_or
           (default VUndefined (assoc (first +:+ ":" +:+ rest) metadata))
           (VStr "").
Proof.
  intros first rest ctx metadata Hfirst Hname Hproperty _ Hmeta.
  apply String.eqb_neq in Hname, Hproperty.
  rewrite !resolve_meta. unfold VariableProcessor.resolveMeta.
  rewrite !getProp_own, Hmeta. cbn [from_option id truthy negb].
  rewrite (split_char_lacks ":" first Hfirst).
  change (first +:+ ":" +:+ rest) with (first +:+ String ":" rest).
  rewrite (split_char_first ":" first rest Hfirst).
  destruct (split_char_cons ":" rest) as (piece & more & ->).
  rewrite Hname, Hproperty. split; reflexivity.
Qed.

Lemma resolve_meta_other_key_witness :
  VariableProcessor.resolve ("meta:" +:+ "og")
    [("metadata", VObj [("og:title", VStr "T")])]
  = nullish_or (default VUndefined (assoc "og" [("og:title", VStr "T")]))
      (VStr "")
  /\ VariableProcessor.resolve ("meta:" +:+ "og" +:+ ":" +:+ "title")
       [("metadata", VObj [("og:title", VStr "T")])]
     = nullish_or
         (default VUndefined
            (assoc ("og" +:+ ":" +:+ "title") [("og:title", VStr "T")]))
         (VStr "").
Proof.
  apply resolve_meta_other_key;
    [reflexivity | discriminate | discriminate | reflexivity | reflexivity].
Defined.

(** X11: when the context has no [metadata], [_selectors], [_selectorsHtml]
    or [_schema] property, every expression of the namespace that reads it
    resolves to the empty string. *)
Theorem resolve_without_side_table :
  forall (expression : string) (ctx : Context),
    (assoc "metadata" ctx = None ->
     VariableProcessor.resolve ("meta:" +:+ expression) ctx = VStr "")
    /\ (assoc "_selectors" ctx = None ->
        VariableProcessor.resolve ("selector:" +:+ expression) ctx = VStr "")
    /\ (assoc "_selectorsHtml" ctx = None ->
        VariableProcessor.resolve ("selectorHtml:" +:+ expression) ctx
        = VStr "")
    /\ (assoc "_schema" ctx = None ->
        VariableProcessor.resolve ("schema:" +:+ expression) ctx = VStr "").
Proof.
  intros expression ctx. repeat split; intros Hnone.
  - rewrite resolve_meta. unfold VariableProcessor.resolveMeta.
    rewrite getProp_own, Hnone. reflexivity.
  - rewrite resolve_selector. unfold VariableProcessor.resolveSelector.
    rewrite getProp_own, Hnone. reflexivity.
  - rewrite resolve_selectorHtml.
    unfold VariableProcessor.resolveSelectorHtml.
    rewrite getProp_own, Hnone. reflexivity.
  - rewrite resolve_schema. unfold VariableProcessor.resolveSchema.
    rewrite getProp_own, Hnone. reflexivity.
Qed.

Lemma resolve_without_side_table_witness :
  VariableProcessor.resolve ("schema:" +:+ "@Article:author")
    [("title", VStr "t")]
  = VStr "".
Proof.
  apply (proj2 (proj2 (proj2 (resolve_without_side_table "@Article:author"
                                [("title", VStr "t")])))).
  reflexivity.
Defined.

(** ** More about [trim] *)

Lemma trimEnd_idempotent (s : string) :
  Js.trimEnd (Js.trimEnd s) = Js.trimEnd s.
Proof.
  induction s as [| c s IH]; [reflexivity |].
  cbn [Js.trimEnd]. destruct (Js.trimEnd s) as [| d t] eqn:Ht.
  - destruct (Js.is_space c) eqn:Hc; [reflexivity |].
    cbn [Js.trimEnd]. rewrite Hc. reflexivity.
  - cbn [Js.trimEnd] in IH |- *. rewrite IH. reflexivity.
Qed.

Lemma trimStart_head (c : ascii) (s : string) :
  Js.is_space c = false -> Js.trimStart (String c s) = String c s.
Proof. intros Hc. cbn [Js.trimStart]. rewrite Hc. reflexivity. Qed.

Lemma trimStart_shape (s : string) :
  Js.trimStart s = ""
  \/ exists c t, Js.trimStart s = String c t /\ Js.is_space c = false.
Proof.
  induction s as [| c s IH]; [left; reflexivity |].
  cbn [Js.trimStart]. destruct (Js.is_space c) eqn:Hc; [exact IH |].
  right. exists c, s. split; [reflexivity | exact Hc].
Qed.

Lemma trimEnd_head (c : ascii) (s : string) :
  Js.is_space c = false ->
  exists t, Js.trimEnd (String c s) = String c t.
Proof.
  intros Hc. cbn [Js.trimEnd]. destruct (Js.trimEnd s) as [| d t].
  - rewrite Hc. exists "". reflexivity.
  - exists (String d t). reflexivity.
Qed.

Lemma trim_idempotent (s : string) : Js.trim (Js.trim s) = Js.trim s.
Proof.
  unfold Js.trim.
  destruct (trimStart_shape s) as [-> | (c & t & -> & Hc)]; [reflexivity |].
  destruct (trimEnd_head c t Hc) as [u Hu]. rewrite Hu.
  rewrite (trimStart_head c u Hc), <- Hu. apply trimEnd_idempotent.
Qed.

Lemma trimEnd_last (s : string) (d : ascii) :
  Js.is_space d = false ->
  Js.trimEnd (s +:+ String d "") = s +:+ String d "".
Proof.
  intros Hd. induction s as [| c s IH].
  - change ("" +:+ String d "") with (String d "").
    cbn [Js.trimEnd]. rewrite Hd. reflexivity.
  - change (String c s +:+ String d "") with (String c (s +:+ String d "")).
    cbn [Js.trimEnd]. rewrite IH.
    destruct s; reflexivity.
Qed.

(** A string that starts and ends with a character that is no white space
    is its own [trim]. *)
Lemma trim_between (c d : ascii) (s : string) :
  Js.is_space c = false -> Js.is_space d = false ->
  Js.trim (String c (s +:+ String d "")) = String c (s +:+ String d "").
Proof.
  intros Hc Hd. unfold Js.trim. rewrite (trimStart_head c _ Hc).
  exact (trimEnd_last (String c s) d Hd).
Qed.

Lemma trimEnd_no_space (s : string) :
  Js.all_chars (fun c => negb (Js.is_space c)) s = true -> Js.trimEnd s = s.
Proof.
  induction s as [| c s IH]; [reflexivity |]. cbn [Js.all_chars Js.trimEnd].
  intros H. apply andb_true_iff in H as [Hc Hs]. apply negb_true_iff in Hc.
  rewrite (IH Hs), Hc. destruct s; reflexivity.
Qed.

Lemma trim_no_space (s : string) :
  Js.all_chars (fun c => negb (Js.is_space c)) s = true -> Js.trim s = s.
Proof.
  intros H. unfold Js.trim. destruct s as [| c s]; [reflexivity |].
  pose proof H as H'. cbn [Js.all_chars] in H'.
  apply andb_true_iff in H' as [Hc _]. apply negb_true_iff in Hc.
  rewrite (trimStart_head c s Hc). exact (trimEnd_no_space _ H).
Qed.

Lemma trim_all_space (s : string) :
  Js.all_chars Js.is_space s = true -> Js.trim s = "".
Proof.
  unfold Js.trim. induction s as [| c s IH]; [reflexivity |].
  cbn [Js.all_chars Js.trimStart]. intros H.
  apply andb_true_iff in H as [Hc Hs]. rewrite Hc. exact (IH Hs).
Qed.

Lemma all_chars_trimStart (p : ascii -> bool) (s : string) :
  Js.all_chars p s = true -> Js.all_chars p (Js.trimStart s) = true.
Proof.
  induction s as [| c s IH]; [reflexivity |]. cbn [Js.trimStart].
  intros H. destruct (Js.is_space c); [| exact H].
  cbn [Js.all_chars] in H. apply andb_true_iff in H as [_ Hs]. exact (IH Hs).
Qed.

Lemma all_chars_trimEnd (p : ascii -> bool) (s : string) :
  Js.all_chars p s = true -> Js.all_chars p (Js.trimEnd s) = true.
Proof.
  induction s as [| c s IH]; [reflexivity |]. cbn [Js.all_chars Js.trimEnd].
  intros H. apply andb_true_iff in H as [Hc Hs]. specialize (IH Hs).
  destruct (Js.trimEnd s) as [| d t].
  - destruct (Js.is_space c); [reflexivity |].
    cbn [Js.all_chars]. rewrite Hc. reflexivity.
  - cbn [Js.all_chars] in IH |- *. rewrite Hc. exact IH.
Qed.

Lemma all_chars_trim (p : ascii -> bool) (s : string) :
  Js.all_chars p s = true -> Js.all_chars p (Js.trim s) = true.
Proof.
  intros H. unfold Js.trim. apply all_chars_trimEnd, all_chars_trimStart, H.
Qed.

(** ** More about the parser *)

Lemma scan_loop_cons (sep : ascii) (emit : string -> string) (char : ascii)
    (rest : string) (prev : option ascii) (parts : list string)
    (current : string) (inQuotes : bool) (quoteChar : option ascii)
    (depth : Z) :
  TemplateEngine.scan_loop sep emit (String char rest) prev parts current
    inQuotes quoteChar depth
  = let next := TemplateEngine.scan_loop sep emit rest (Some char) in
    let current' := current +:+ String char "" in
    if (Ascii.eqb char Js.dquote || Ascii.eqb char Js.squote)
       && negb (bool_decide (prev = Some Js.backslash))
    then
      if negb inQuotes then next parts current' true (Some char) depth
      else if bool_decide (Some char = quoteChar)
      then next parts current' false quoteChar depth
      else next parts current' inQuotes quoteChar depth
    else if Ascii.eqb char "(" && negb inQuotes
    then next parts current' inQuotes quoteChar (depth + 1)
    else if Ascii.eqb char ")" && negb inQuotes
    then next parts current' inQuotes quoteChar (depth - 1)
    else if Ascii.eqb char sep && negb inQuotes && (depth =? 0)
    then next (TemplateEngine.push_trimmed emit parts current) "" inQuotes
           quoteChar depth
    else next parts current' inQuotes quoteChar depth.
Proof. reflexivity. Qed.

(** Outside quotes and parentheses, plain characters are copied into the
    current piece. *)
Lemma scan_loop_plain (sep : ascii) (emit : string -> string) (rest : string) :
  Js.all_chars (plain_char sep) rest = true ->
  forall (prev : option ascii) (parts : list string) (current : string)
         (quoteChar : option ascii),
    TemplateEngine.scan_loop sep emit rest prev parts current false quoteChar 0
    = TemplateEngine.push_trimmed emit parts (current +:+ rest).
Proof.
  induction rest as [| c rest IH]; intros Hplain prev parts current quoteChar.
  - rewrite append_empty_r. reflexivity.
  - cbn [Js.all_chars] in Hplain. apply andb_true_iff in Hplain as [Hc Hrest].
    unfold plain_char in Hc.
    repeat (apply andb_true_iff in Hc as [Hc ?]).
    repeat match goal with
           | H : negb _ = true |- _ => apply negb_true_iff in H
           end.
    rewrite scan_loop_cons. cbv zeta.
    repeat match goal with
           | H : Ascii.eqb c _ = false |- _ => rewrite H
           end.
    cbn [orb andb]. rewrite (IH Hrest), append_assoc. reflexivity.
Qed.

(** Inside double quotes, everything up to the closing quote is copied. *)
Lemma scan_loop_in_dquote (sep : ascii) (emit : string -> string)
    (text : string) :
  lacks Js.dquote text ->
  forall (prev : option ascii) (parts : list string) (current : string)
         (depth : Z),
    TemplateEngine.scan_loop sep emit (text +:+ String Js.dquote "") prev
      parts current true (Some Js.dquote) depth
    = TemplateEngine.push_trimmed emit parts
        (current +:+ text +:+ String Js.dquote "").
Proof.
  unfold lacks.
  induction text as [| c text IH]; intros Hlacks prev parts current depth.
  - change ("" +:+ String Js.dquote "") with (String Js.dquote "").
    rewrite scan_loop_cons. cbv zeta. cbn [negb].
    rewrite !andb_false_r. cbn [andb].
    destruct (_ && _); reflexivity.
  - cbn [Js.all_chars] in Hlacks.
    apply andb_true_iff in Hlacks as [Hc Htext]. apply negb_true_iff in Hc.
    change (String c text +:+ String Js.dquote "")
      with (String c (text +:+ String Js.dquote "")).
    rewrite scan_loop_cons. cbv zeta.
    assert (Hquote : bool_decide (Some c = Some Js.dquote) = false).
    { apply bool_decide_eq_false. intros [= ->].
      rewrite Ascii.eqb_refl in Hc. discriminate. }
    cbn [negb]. rewrite Hquote, !andb_false_r. cbn [andb].
    rewrite !(IH Htext), !append_assoc.
    destruct (_ && _); reflexivity.
Qed.

(** Every piece the parser pushes satisfies what [emit] guarantees. *)
Lemma scan_loop_pieces (sep : ascii) (emit : string -> string)
    (good : string -> Prop) (rest : string) :
  (forall current, Js.trim current <> "" -> good (emit (Js.trim current))) ->
  forall (prev : option ascii) (parts : list string) (current : string)
         (inQuotes : bool) (quoteChar : option ascii) (depth : Z),
    Forall good parts ->
    Forall good
      (TemplateEngine.scan_loop sep emit rest prev parts current inQuotes
         quoteChar depth).
Proof.
  intros Hemit.
  assert (Hpush : forall parts current,
             Forall good parts ->
             Forall good (TemplateEngine.push_trimmed emit parts current)).
  { intros parts current Hparts. unfold TemplateEngine.push_trimmed.
    destruct (Js.trim current) as [| c t] eqn:Ht; [exact Hparts |].
    apply Forall_app. split; [exact Hparts |].
    constructor; [| constructor]. rewrite <- Ht. apply Hemit.
    rewrite Ht. discriminate. }
  induction rest as [| c rest IH];
    intros prev parts current inQuotes quoteChar depth Hparts.
  - apply Hpush, Hparts.
  - rewrite scan_loop_cons. cbv zeta.
    repeat match goal with
           | |- context [if ?b then _ else _] => destruct b
           end; apply IH; auto.
Qed.

(** X12: every part [parseExpression] returns is non-empty and has no
    white space at its ends. *)
Theorem parseExpression_parts_are_trimmed :
  forall expression : string,
    Forall (fun part => part <> "" /\ Js.trim part = part)
           (TemplateEngine.parseExpression expression).
Proof.
  intros expression. unfold TemplateEngine.parseExpression.
  apply scan_loop_pieces; [| constructor].
  intros current Hne. unfold id. split; [exact Hne | apply trim_idempotent].
Qed.

Lemma slice_inside (q1 q2 : ascii) (text : string) :
  Js.slice (String q1 (text +:+ String q2 "")) 1 (-1) = text.
Proof.
  unfold Js.slice, Js.clamp_index, Js.str_length.
  cbn [String.length]. rewrite length_append. cbn [String.length].
  change (1 <? 0) with false. change (-1 <? 0) with true. cbv iota.
  match goal with
  | |- String.substring ?a ?b _ = _ =>
      replace a with 1%nat by lia;
      replace b with (String.length text) by lia
  end.
  exact (substring_before text (String q2 "")).
Qed.

Lemma endsWith_other (a : string) (c d : ascii) :
  c <> d -> Js.endsWith (a +:+ String c "") (String d "") = false.
Proof.
  intros Hcd. unfold Js.endsWith, Js.str_length. rewrite length_append.
  cbn [String.length].
  replace (String.length a + 1 - 1)%nat with (String.length a) by lia.
  pose proof (substring_after a (String c "")) as Hlast.
  cbn [String.length] in Hlast. rewrite Hlast.
  apply andb_false_iff. right. apply String.eqb_neq. congruence.
Qed.

(** X13: [unquote] removes one pair of quotes of the same kind around a
    text, whatever the text holds, and leaves alone a text between quotes of
    two kinds. *)
Theorem unquote_removes_the_outer_quotes :
  forall text : string,
    TemplateEngine.unquote (String Js.dquote (text +:+ String Js.dquote ""))
    = text
    /\ TemplateEngine.unquote (String Js.squote (text +:+ String Js.squote ""))
       = text
    /\ TemplateEngine.unquote (String Js.dquote (text +:+ String Js.squote ""))
       = String Js.dquote (text +:+ String Js.squote "").
Proof.
  intros text. unfold TemplateEngine.unquote.
  assert (Hde : Js.endsWith (String Js.dquote (text +:+ String Js.dquote ""))
                  (String Js.dquote "") = true)
    by exact (endsWith_append (String Js.dquote text) (String Js.dquote "")).
  assert (Hds : Js.startsWith (String Js.dquote (text +:+ String Js.dquote ""))
                  (String Js.dquote "") = true)
    by exact (startsWith_append (String Js.dquote "")
                (text +:+ String Js.dquote "")).
  assert (Hse : Js.endsWith (String Js.squote (text +:+ String Js.squote ""))
                  "'" = true)
    by exact (endsWith_append (String Js.squote text) "'").
  assert (Hss : Js.startsWith (String Js.squote (text +:+ String Js.squote ""))
                  "'" = true)
    by exact (startsWith_append "'" (text +:+ String Js.squote "")).
  assert (Hme : Js.endsWith (String Js.dquote (text +:+ String Js.squote ""))
                  (String Js.dquote "") = false)
    by (apply (endsWith_other (String Js.dquote text) Js.squote Js.dquote);
        discriminate).
  rewrite Hde, Hds, Hse, Hss, Hme, orb_true_r, andb_false_r.
  split; [apply slice_inside | split; [apply slice_inside | reflexivity]].
Qed.

(** ** More about the renderer *)

Lemma space_is_plain (c : ascii) :
  Js.is_space c = true ->
  Ascii.eqb c Js.dquote = false /\ Ascii.eqb c Js.squote = false
  /\ Ascii.eqb c "(" = false /\ Ascii.eqb c ")" = false
  /\ Ascii.eqb c "|" = false /\ Ascii.eqb c "}" = false.
Proof.
  destruct c as [[] [] [] [] [] [] [] []]; vm_compute; intros H;
    try discriminate H; repeat split.
Qed.

(** An expression made of white space and pipes has no part. *)
Lemma scan_loop_blank (emit : string -> string) (rest : string) :
  Js.all_chars blank_or_pipe rest = true ->
  forall (prev : option ascii) (current : string) (quoteChar : option ascii),
    Js.all_chars Js.is_space current = true ->
    TemplateEngine.scan_loop "|" emit rest prev [] current false quoteChar 0
    = [].
Proof.
  induction rest as [| c rest IH]; intros Hrest prev current quoteChar Hcur.
  - cbn [TemplateEngine.scan_loop]. unfold TemplateEngine.push_trimmed.
    rewrite (trim_all_space current Hcur). reflexivity.
  - cbn [Js.all_chars] in Hrest. apply andb_true_iff in Hrest as [Hc Hrest].
    rewrite scan_loop_cons. cbv zeta. unfold blank_or_pipe in Hc.
    destruct (Js.is_space c) eqn:Hspace.
    + destruct (space_is_plain c Hspace) as (H1 & H2 & H3 & H4 & H5 & _).
      rewrite H1, H2, H3, H4, H5. cbn [orb andb].
      apply (IH Hrest). rewrite all_chars_append, Hcur.
      cbn [Js.all_chars]. rewrite Hspace. reflexivity.
    + cbn [orb] in Hc. apply Ascii.eqb_eq in Hc. subst c.
      cbn [orb andb negb Ascii.eqb Bool.eqb Js.dquote Js.squote].
      unfold TemplateEngine.push_trimmed at 1.
      rewrite (trim_all_space current Hcur). cbn [Z.eqb].
      apply (IH Hrest). reflexivity.
Qed.

Lemma bind_throw {A B} (e : JsError) (k : A -> Eff B) :
  (throw e ≫= k) = throw e.
Proof. reflexivity. Qed.

(** X14: a placeholder whose body is made of white space and pipes only
    makes [render] throw the error of reading [startsWith] from
    [undefined], whatever follows the placeholder. *)
Theorem render_throws_on_blank_body :
  forall (filters : gmap string FilterFunction) (body post : string)
         (ctx : Context),
    body <> "" ->
    Js.all_chars blank_or_pipe body = true ->
    TemplateEngine.render filters ("{{" +:+ body +:+ "}}" +:+ post) ctx
    = throw TemplateEngine.undefined_name_error.
Proof.
  intros filters body post ctx Hne Hblank.
  assert (Hbrace : Spec.no_closing_brace body).
  { unfold Spec.no_closing_brace. revert Hblank. apply all_chars_weaken.
    intros c Hc. unfold blank_or_pipe in Hc. apply negb_true_iff.
    destruct (Js.is_space c) eqn:Hspace.
    - exact (proj2 (proj2 (proj2 (proj2 (proj2 (space_is_plain c Hspace)))))).
    - cbn [orb] in Hc. apply Ascii.eqb_eq in Hc. subst c. reflexivity. }
  rewrite (render_placeholder_first filters ctx body post Hne Hbrace).
  unfold TemplateEngine.processExpression, TemplateEngine.parseExpression.
  rewrite (scan_loop_blank id (Js.trim body) (all_chars_trim _ _ Hblank)
             None "" None eq_refl).
  reflexivity.
Qed.

Lemma render_throws_on_blank_body_witness :
  TemplateEngine.render FilterProcessor.builtinFilters
    ("{{" +:+ " | 	|| " +:+ "}}" +:+ " and {{title}}") [("title", VStr "t")]
  = throw TemplateEngine.undefined_name_error.
Proof.
  apply render_throws_on_blank_body; [discriminate | reflexivity].
Defined.

(** X15: a placeholder whose body is a text between double quotes, the text
    holding no double quote and no closing brace, is left in the output as it
    is, whatever pipes, colons or parentheses the text holds. *)
Theorem render_keeps_prompt_literals :
  forall (filters : gmap string FilterFunction) (text post : string)
         (ctx : Context),
    lacks Js.dquote text -> lacks "}" text ->
    let literal := String Js.dquote (text +:+ String Js.dquote "") in
    TemplateEngine.render filters ("{{" +:+ literal +:+ "}}" +:+ post) ctx
    = (out ← TemplateEngine.render filters post ctx;
       mret (("{{" +:+ literal +:+ "}}") +:+ out)).
Proof.
  intros filters text post ctx Hquote Hbrace literal.
  assert (Hne : literal <> "") by discriminate.
  assert (Hb : Spec.no_closing_brace literal).
  { unfold Spec.no_closing_brace, literal, lacks in *.
    cbn [Js.all_chars]. rewrite all_chars_append, Hbrace. reflexivity. }
  assert (Htrim : Js.trim literal = literal)
    by (apply trim_between; reflexivity).
  assert (Hparse : TemplateEngine.parseExpression literal = [literal]).
  { unfold TemplateEngine.parseExpression, literal.
    rewrite scan_loop_cons. cbv zeta.
    change (Ascii.eqb Js.dquote Js.dquote) with true.
    cbn [orb andb negb].
    replace (bool_decide (None = Some Js.backslash)) with false by reflexivity.
    cbn [negb].
    rewrite (scan_loop_in_dquote "|" id text Hquote).
    change (TemplateEngine.push_trimmed id [] literal = [literal]).
    unfold TemplateEngine.push_trimmed. rewrite Htrim. reflexivity. }
  assert (Hresolve : VariableProcessor.resolve literal ctx
                     = VStr ("{{" +:+ literal +:+ "}}")).
  { unfold VariableProcessor.resolve.
    replace (Js.startsWith literal (String Js.dquote "")) with true
      by (symmetry;
          exact (startsWith_append (String Js.dquote "")
                   (text +:+ String Js.dquote ""))).
    replace (Js.endsWith literal (String Js.dquote "")) with true
      by (symmetry;
          exact (endsWith_append (String Js.dquote text)
                   (String Js.dquote ""))).
    reflexivity. }
  rewrite (render_placeholder_first filters ctx literal post Hne Hb).
  unfold TemplateEngine.processExpression.
  rewrite Htrim, Hparse, Hresolve. cbn [TemplateEngine.apply_filters].
  rewrite !bind_ret_l. reflexivity.
Qed.

Lemma render_keeps_prompt_literals_witness :
  TemplateEngine.render FilterProcessor.builtinFilters
    ("{{" +:+ String Js.dquote ("list (a|b): c, 'd'" +:+ String Js.dquote "")
          +:+ "}}" +:+ "!")
    []
  = (out ← TemplateEngine.render FilterProcessor.builtinFilters "!" [];
     mret (("{{" +:+ String Js.dquote
                       ("list (a|b): c, 'd'" +:+ String Js.dquote "")
                 +:+ "}}") +:+ out)).
Proof.
  apply (render_keeps_prompt_literals FilterProcessor.builtinFilters
           "list (a|b): c, 'd'" "!" []); reflexivity.
Defined.

(** X16: text without an opening brace in front of a template is copied to
    the output, and the rest is rendered as if it stood alone. *)
Theorem render_copies_plain_text :
  forall (filters : gmap string FilterFunction) (text template : string)
         (ctx : Context),
    lacks "{" text ->
    TemplateEngine.render filters (text +:+ template) ctx
    = (out ← TemplateEngine.render filters template ctx;
       mret (text +:+ out)).
Proof.
  intros filters text template ctx. apply render_copies_text.
Qed.

Lemma render_copies_plain_text_witness :
  TemplateEngine.render FilterProcessor.builtinFilters
    ("# Title: " +:+ "{{title|upper}}") [("title", VStr "t")]
  = (out ← TemplateEngine.render FilterProcessor.builtinFilters
             "{{title|upper}}" [("title", VStr "t")];
     mret ("# Title: " +:+ out)).
Proof.
  apply render_copies_plain_text. reflexivity.
Defined.

Lemma word_is_plain_char (c : ascii) :
  Js.is_word c = true -> plain_char "|" c = true.
Proof.
  intros Hc.
  destruct (word_is_plain c Hc)
    as (_ & _ & _ & Hpipe & Hopen & Hclose & Hdq & Hsq & _).
  unfold plain_char.
  apply Ascii.eqb_neq in Hpipe, Hopen, Hclose, Hdq, Hsq.
  rewrite Hpipe, Hopen, Hclose, Hdq, Hsq. reflexivity.
Qed.

Lemma word_no_space (s : string) :
  Js.all_chars Js.is_word s = true ->
  Js.all_chars (fun c => negb (Js.is_space c)) s = true.
Proof.
  apply all_chars_weaken. intros c Hc.
  destruct (word_is_plain c Hc) as (_ & _ & _ & _ & _ & _ & _ & _ & _ & Hs).
  rewrite Hs. reflexivity.
Qed.

Lemma word_no_closing_brace (s : string) :
  Js.all_chars Js.is_word s = true -> Spec.no_closing_brace s.
Proof. apply word_lacks. reflexivity. Qed.

(** A name made of word characters is the only part of its expression. *)
Lemma parseExpression_plain_key (key : string) :
  key <> "" -> Js.all_chars Js.is_word key = true ->
  TemplateEngine.parseExpression key = [key].
Proof.
  intros Hne Hkey. unfold TemplateEngine.parseExpression.
  rewrite (scan_loop_plain "|" id key
             (all_chars_weaken _ _ key word_is_plain_char Hkey)).
  unfold TemplateEngine.push_trimmed.
  change ("" +:+ key) with key.
  rewrite (trim_no_space key (word_no_space key Hkey)).
  destruct key; [contradiction | reflexivity].
Qed.

Lemma render_plain_variable (filters : gmap string FilterFunction)
    (ctx : Context) (key post : string) :
  key <> "" -> Js.all_chars Js.is_word key = true ->
  TemplateEngine.render filters ("{{" +:+ key +:+ "}}" +:+ post) ctx
  = (out ← TemplateEngine.render filters post ctx;
     mret (TemplateEngine.stringify
             (nullish_or (default VUndefined (assoc key ctx)) (VStr ""))
           +:+ out)).
Proof.
  intros Hne Hkey.
  rewrite (render_placeholder_first filters ctx key post Hne
             (word_no_closing_brace key Hkey)).
  unfold TemplateEngine.processExpression.
  rewrite (trim_no_space key (word_no_space key Hkey)).
  rewrite (parseExpression_plain_key key Hne Hkey).
  rewrite (resolve_plain_key key ctx Hkey).
  cbn [TemplateEngine.apply_filters]. rewrite !bind_ret_l. reflexivity.
Qed.

(** X17: a placeholder that holds only a name of letters, digits and
    underscores, not the name of a member inherited from [Object.prototype],
    is replaced by the text of the context's property of that name, and by
    nothing when the property is missing, [null] or [undefined]; the rest of
    the template is rendered after it.  The numbers of the context are safe
    integers. *)
Theorem render_substitutes_plain_variable :
  forall (filters : gmap string FilterFunction) (key post : string)
         (ctx : Context),
    key <> "" -> Js.all_chars Js.is_word key = true ->
    inherited_name key = false -> plain_value (VObj ctx) = true ->
    TemplateEngine.render filters ("{{" +:+ key +:+ "}}" +:+ post) ctx
    = (out ← TemplateEngine.render filters post ctx;
       mret (TemplateEngine.stringify
               match assoc key ctx with
               | Some VNull | Some VUndefined | None => VStr ""
               | Some v => v
               end
             +:+ out)).
Proof.
  intros filters key post ctx Hne Hkey _ _.
  rewrite (render_plain_variable filters ctx key post Hne Hkey).
  destruct (assoc key ctx) as [[] |]; reflexivity.
Qed.

Lemma render_substitutes_plain_variable_witness :
  TemplateEngine.render FilterProcessor.builtinFilters
    ("{{" +:+ "author" +:+ "}}" +:+ " wrote {{title}}")
    [("title", VStr "T")]
  = (out ← TemplateEngine.render FilterProcessor.builtinFilters
             " wrote {{title}}" [("title", VStr "T")];
     mret (TemplateEngine.stringify
             match assoc "author" [("title", VStr "T")] with
             | Some VNull | Some VUndefined | None => VStr ""
             | Some v => v
             end
           +:+ out)).
Proof.
  apply render_substitutes_plain_variable;
    [discriminate | reflexivity ..].
Defined.

(** ** More about the filters *)

Lemma apply_registered (filters : gmap string FilterFunction) (n : string)
    (fn : FilterFunction) (v : Value) (args : list string) :
  filters !! n = Some fn ->
  FilterProcessor.apply filters n v args = lift (fn v args).
Proof. intros H. unfold FilterProcessor.apply. rewrite H. reflexivity. Qed.

(** X19: after [register(name, fn)], [apply] with that name calls [fn],
    also when the name was taken by a built-in filter, and [apply] with any
    other name does what it did before. *)
Theorem register_then_apply :
  forall (filters : gmap string FilterFunction) (n : string)
         (fn : FilterFunction) (v : Value) (args : list string),
    FilterProcessor.apply (FilterProcessor.register n fn filters) n v args
    = lift (fn v args)
    /\ (forall m : string,
           m <> n ->
           FilterProcessor.apply (FilterProcessor.register n fn filters)
             m v args
           = FilterProcessor.apply filters m v args).
Proof.
  intros filters n fn v args. unfold FilterProcessor.register. split.
  - apply apply_registered. apply lookup_insert_eq.
  - intros m Hm. unfold FilterProcessor.apply.
    rewrite lookup_insert_ne by congruence. reflexivity.
Qed.

Lemma register_then_apply_witness :
  FilterProcessor.apply
    (FilterProcessor.register "upper" (fun v _ => Returns VNull)
       FilterProcessor.builtinFilters)
    "lower" (VStr "Ab") []
  = FilterProcessor.apply FilterProcessor.builtinFilters "lower" (VStr "Ab") [].
Proof.
  apply (proj2 (register_then_apply FilterProcessor.builtinFilters "upper"
                  (fun v _ => Returns VNull) (VStr "Ab") [])).
  discriminate.
Defined.

Lemma lookup_upper :
  FilterProcessor.builtinFilters !! "upper" = Some FilterProcessor.Builtin.upper.
Proof. vm_compute. reflexivity. Qed.

Lemma lookup_lower :
  FilterProcessor.builtinFilters !! "lower" = Some FilterProcessor.Builtin.lower.
Proof. vm_compute. reflexivity. Qed.

Lemma apply_filters_cons (filters : gmap string FilterFunction)
    (filter : string) (rest : list string) (v : Value) :
  TemplateEngine.apply_filters filters (filter :: rest) v
  = (x ← FilterProcessor.apply filters
           (name (TemplateEngine.parseFilter filter)) v
           (args (TemplateEngine.parseFilter filter));
     TemplateEngine.apply_filters filters rest x).
Proof. reflexivity. Qed.

Lemma upper_upper (c : ascii) : Js.upper_char (Js.upper_char c) = Js.upper_char c.
Proof. destruct c as [[] [] [] [] [] [] [] []]; reflexivity. Qed.

Lemma lower_lower (c : ascii) : Js.lower_char (Js.lower_char c) = Js.lower_char c.
Proof. destruct c as [[] [] [] [] [] [] [] []]; reflexivity. Qed.

Lemma lower_upper (c : ascii) : Js.lower_char (Js.upper_char c) = Js.lower_char c.
Proof. destruct c as [[] [] [] [] [] [] [] []]; reflexivity. Qed.

Lemma upper_lower (c : ascii) : Js.upper_char (Js.lower_char c) = Js.upper_char c.
Proof. destruct c as [[] [] [] [] [] [] [] []]; reflexivity. Qed.

Lemma map_chars_compose (f g h : ascii -> ascii) (s : string) :
  (forall c, f (g c) = h c) ->
  Js.map_chars f (Js.map_chars g s) = Js.map_chars h s.
Proof.
  intros H. induction s as [| c s IH]; [reflexivity |].
  cbn [Js.map_chars]. rewrite H, IH. reflexivity.
Qed.

Lemma apply_upper (v : Value) (args : list string) :
  FilterProcessor.apply FilterProcessor.builtinFilters "upper" v args
  = mret (VStr (Js.toUpperCase (ToString v))).
Proof. rewrite (apply_registered _ _ _ v args lookup_upper). reflexivity. Qed.

Lemma apply_lower (v : Value) (args : list string) :
  FilterProcessor.apply FilterProcessor.builtinFilters "lower" v args
  = mret (VStr (Js.toLowerCase (ToString v))).
Proof. rewrite (apply_registered _ _ _ v args lookup_lower). reflexivity. Qed.

(** X20: in a chain, the last of the filters [upper] and [lower] decides, on
    ASCII text: [upper|lower] is [lower], [lower|upper] is [upper], and each
    of the two applied twice is itself applied once. *)
Theorem case_filters_last_one_wins :
  forall v : Value,
    Js.all_chars is_ascii (ToString v) = true ->
    let run chain :=
      TemplateEngine.apply_filters FilterProcessor.builtinFilters chain v in
    run ["upper"; "lower"] = run ["lower"]
    /\ run ["lower"; "upper"] = run ["upper"]
    /\ run ["upper"; "upper"] = run ["upper"]
    /\ run ["lower"; "lower"] = run ["lower"].
Proof.
  intros v _ run. unfold run. rewrite !apply_filters_cons.
  change (TemplateEngine.parseFilter "upper")
    with {| name := "upper"; args := [] |}.
  change (TemplateEngine.parseFilter "lower")
    with {| name := "lower"; args := [] |}.
  cbn [name args TemplateEngine.apply_filters].
  rewrite !apply_upper, !apply_lower, !bind_ret_l.
  rewrite !apply_upper, !apply_lower, !bind_ret_l.
  cbn [ToString]. unfold Js.toUpperCase, Js.toLowerCase.
  rewrite (map_chars_compose _ _ _ (ToString v) lower_upper).
  rewrite (map_chars_compose _ _ _ (ToString v) upper_lower).
  rewrite (map_chars_compose _ _ _ (ToString v) upper_upper).
  rewrite (map_chars_compose _ _ _ (ToString v) lower_lower).
  repeat split.
Qed.

Lemma case_filters_witness :
  let run chain :=
    TemplateEngine.apply_filters FilterProcessor.builtinFilters chain
      (VArr [VStr "MiXed"; VNum 42; VBool true]) in
  run ["upper"; "lower"] = run ["lower"]
  /\ run ["lower"; "upper"] = run ["upper"]
  /\ run ["upper"; "upper"] = run ["upper"]
  /\ run ["lower"; "lower"] = run ["lower"].
Proof.
  apply case_filters_last_one_wins. reflexivity.
Defined.

Lemma capitalize_text (s : string) (args : list string) :
  FilterProcessor.Builtin.capitalize (VStr s) args
  = Returns (VStr match s with
                  | EmptyString => EmptyString
                  | String c rest =>
                      String (Js.upper_char c) (Js.toLowerCase rest)
                  end).
Proof.
  unfold FilterProcessor.Builtin.capitalize. do 2 f_equal.
  destruct s as [| c rest]; [reflexivity |].
  change (ToString (VStr (String c rest))) with (String c "" +:+ rest).
  change 1 with (Z.of_nat (String.length (String c ""))).
  rewrite slice_from_append. reflexivity.
Qed.

Lemma apply_capitalize (v : Value) (args : list string) :
  FilterProcessor.apply FilterProcessor.builtinFilters "capitalize" v args
  = mret (VStr match ToString v with
               | EmptyString => EmptyString
               | String c rest =>
                   String (Js.upper_char c) (Js.toLowerCase rest)
               end).
Proof.
  rewrite (apply_registered _ _ _ v args lookup_capitalize).
  transitivity (lift (FilterProcessor.Builtin.capitalize
                        (VStr (ToString v)) args));
    [reflexivity |].
  rewrite capitalize_text. reflexivity.
Qed.

(** X21: on ASCII text, [capitalize] does not depend on the case of its
    input: in a chain after [upper] or [lower] it gives what it gives alone,
    and applied twice it gives what it gives once. *)
Theorem capitalize_normalises_case :
  forall v : Value,
    Js.all_chars is_ascii (ToString v) = true ->
    let run chain :=
      TemplateEngine.apply_filters FilterProcessor.builtinFilters chain v in
    run ["upper"; "capitalize"] = run ["capitalize"]
    /\ run ["lower"; "capitalize"] = run ["capitalize"]
    /\ run ["capitalize"; "capitalize"] = run ["capitalize"].
Proof.
  intros v _ run. unfold run. rewrite !apply_filters_cons.
  change (TemplateEngine.parseFilter "upper")
    with {| name := "upper"; args := [] |}.
  change (TemplateEngine.parseFilter "lower")
    with {| name := "lower"; args := [] |}.
  change (TemplateEngine.parseFilter "capitalize")
    with {| name := "capitalize"; args := [] |}.
  cbn [name args TemplateEngine.apply_filters].
  rewrite !apply_upper, !apply_lower, !apply_capitalize, !bind_ret_l.
  rewrite !apply_capitalize, !bind_ret_l.
  cbn [ToString]. unfold Js.toUpperCase, Js.toLowerCase.
  destruct (ToString v) as [| c rest]; [repeat split |].
  cbn [Js.map_chars].
  rewrite upper_upper, upper_lower.
  rewrite (map_chars_compose _ _ _ rest lower_upper).
  rewrite (map_chars_compose _ _ _ rest lower_lower).
  repeat split.
Qed.

Lemma capitalize_normalises_witness :
  let run chain :=
    TemplateEngine.apply_filters FilterProcessor.builtinFilters chain
      (VStr "hELLO wORLD") in
  run ["upper"; "capitalize"] = run ["capitalize"]
  /\ run ["lower"; "capitalize"] = run ["capitalize"]
  /\ run ["capitalize"; "capitalize"] = run ["capitalize"].
Proof.
  apply capitalize_normalises_case. reflexivity.
Defined.

Lemma rev_string_twice (a acc1 acc2 : string) :
  Js.rev_string acc2 (Js.rev_string acc1 a) = Js.rev_string (a +:+ acc2) acc1.
Proof.
  revert acc1 acc2. induction a as [| c a IH]; intros acc1 acc2;
    [reflexivity |].
  cbn [Js.rev_string]. rewrite IH. reflexivity.
Qed.

Lemma rev_string_involutive (a : string) :
  Js.rev_string "" (Js.rev_string "" a) = a.
Proof. rewrite rev_string_twice. cbn [Js.rev_string]. apply append_empty_r. Qed.

Lemma split_go_item (c : ascii) (a : string) :
  lacks c a ->
  forall cur t : string,
    Js.split_go (String c "") 0 cur (a +:+ t)
    = Js.split_go (String c "") 0 (Js.rev_string cur a) t.
Proof.
  unfold lacks. induction a as [| d a IH]; intros Hlacks cur t;
    [reflexivity |].
  cbn [Js.all_chars] in Hlacks. apply andb_true_iff in Hlacks as [Hd Ha].
  apply negb_true_iff, Ascii.eqb_neq in Hd.
  change (String d a +:+ t) with (String d (a +:+ t)).
  cbn [Js.split_go String.prefix].
  destruct (ascii_dec c d) as [-> |]; [contradiction |].
  rewrite (IH Ha). reflexivity.
Qed.

Lemma split_go_separator (c : ascii) (cur t : string) :
  Js.split_go (String c "") 0 cur (String c t)
  = Js.rev_string "" cur :: Js.split_go (String c "") 0 "" t.
Proof.
  cbn [Js.split_go String.prefix].
  destruct (ascii_dec c c); [| contradiction].
  rewrite prefix_empty. reflexivity.
Qed.

(** Joining texts that lack the separator and splitting again gives the
    texts back. *)
Lemma split_join (c : ascii) (items : list string) :
  items <> [] -> Forall (lacks c) items ->
  Js.split (Js.join (String c "") items) (String c "") = items.
Proof.
  intros Hne Hitems. unfold Js.split.
  induction Hitems as [| x rest Hx Hrest IH]; [contradiction |].
  destruct rest as [| y rest].
  - cbn [Js.join]. rewrite <- (append_empty_r x) at 1.
    rewrite (split_go_item c x Hx). cbn [Js.split_go].
    rewrite rev_string_involutive. reflexivity.
  - change (Js.join (String c "") (x :: y :: rest))
      with (x +:+ String c (Js.join (String c "") (y :: rest))).
    rewrite (split_go_item c x Hx), split_go_separator.
    rewrite rev_string_involutive, IH by discriminate. reflexivity.
Qed.

Lemma arrayJoin_strings (items : list string) (sep : string) :
  arrayJoin (map VStr items) sep = Js.join sep items.
Proof.
  unfold arrayJoin. rewrite map_map. f_equal.
  induction items as [| x items IH]; [reflexivity |].
  cbn [map]. rewrite IH. reflexivity.
Qed.

(** X22: [join] with a one-character separator followed by [split] with the
    same separator gives back a non-empty array of strings, provided no
    string of the array holds the separator. *)
Theorem join_then_split_round_trip :
  forall (items : list string) (c : ascii),
    items <> [] -> Forall (lacks c) items ->
    FilterProcessor.Builtin.join (VArr (map VStr items)) [String c ""]
    = Returns (VStr (Js.join (String c "") items))
    /\ FilterProcessor.Builtin.split (VStr (Js.join (String c "") items))
         [String c ""]
       = Returns (VArr (map VStr items)).
Proof.
  intros items c Hne Hitems. split.
  - unfold FilterProcessor.Builtin.join. cbn [lookup list_lookup from_option id].
    rewrite arrayJoin_strings. reflexivity.
  - unfold FilterProcessor.Builtin.split.
    cbn [lookup list_lookup from_option id ToString].
    rewrite (split_join c items Hne Hitems). reflexivity.
Qed.

Lemma join_then_split_witness :
  FilterProcessor.Builtin.join (VArr (map VStr ["a b"; ""; "c"])) [String "," ""]
  = Returns (VStr (Js.join (String "," "") ["a b"; ""; "c"]))
  /\ FilterProcessor.Builtin.split
       (VStr (Js.join (String "," "") ["a b"; ""; "c"])) [String "," ""]
     = Returns (VArr (map VStr ["a b"; ""; "c"])).
Proof.
  apply join_then_split_round_trip; [discriminate |].
  repeat constructor.
Defined.

(** X23: [blockquote] puts the quote mark and a space in front of every line
    of its input, the empty lines included. *)
Theorem blockquote_marks_every_line :
  forall (lines : list string) (args : list string),
    lines <> [] -> Forall (lacks "010"%char) lines ->
    FilterProcessor.Builtin.blockquote
      (VStr (Js.join FilterProcessor.newline lines)) args
    = Returns (VStr (Js.join FilterProcessor.newline
                       (map (fun line => "> " +:+ line) lines))).
Proof.
  intros lines args Hne Hlines. unfold FilterProcessor.Builtin.blockquote.
  cbn [ToString]. unfold FilterProcessor.newline.
  rewrite (split_join "010"%char lines Hne Hlines). reflexivity.
Qed.

Lemma blockquote_marks_every_line_witness :
  FilterProcessor.Builtin.blockquote
    (VStr (Js.join FilterProcessor.newline ["first"; ""; "> third"])) []
  = Returns (VStr (Js.join FilterProcessor.newline
                     (map (fun line => "> " +:+ line)
                          ["first"; ""; "> third"]))).
Proof.
  apply blockquote_marks_every_line; [discriminate |].
  repeat constructor.
Defined.

(** ** File names *)

Lemma all_chars_substring (p : ascii -> bool) (s : string) :
  Js.all_chars p s = true ->
  forall n m : nat, Js.all_chars p (String.substring n m s) = true.
Proof.
  induction s as [| c s IH]; intros H n m.
  - destruct n, m; reflexivity.
  - cbn [Js.all_chars] in H. apply andb_true_iff in H as [Hc Hs].
    destruct n as [| n]; cbn [String.substring].
    + destruct m as [| m]; [reflexivity |].
      cbn [Js.all_chars]. rewrite Hc. exact (IH Hs 0%nat m).
    + exact (IH Hs n m).
Qed.

Lemma length_substring (s : string) :
  forall n m : nat, (String.length (String.substring n m s) <= m)%nat.
Proof.
  induction s as [| c s IH]; intros n m.
  - destruct n, m; cbn; lia.
  - destruct n as [| n]; cbn [String.substring].
    + destruct m as [| m]; cbn [String.length]; [lia |].
      specialize (IH 0%nat m). lia.
    + apply IH.
Qed.

Lemma remove_forbidden_clean (name : string) :
  Js.all_chars (fun c => negb (FileName.is_forbidden c))
    (FileName.remove_forbidden name) = true.
Proof.
  induction name as [| c name IH]; [reflexivity |].
  cbn [FileName.remove_forbidden].
  destruct (FileName.is_forbidden c) eqn:Hc; [exact IH |].
  cbn [Js.all_chars]. rewrite Hc, IH. reflexivity.
Qed.

Lemma collapse_spaces_clean (name : string) :
  Js.all_chars (fun c => negb (FileName.is_forbidden c)) name = true ->
  forall in_run : bool,
    Js.all_chars file_name_char (FileName.collapse_spaces in_run name) = true.
Proof.
  induction name as [| c name IH]; intros H in_run; [reflexivity |].
  cbn [Js.all_chars] in H. apply andb_true_iff in H as [Hc Hname].
  cbn [FileName.collapse_spaces].
  destruct (Js.is_space c) eqn:Hspace.
  - destruct in_run; [exact (IH Hname true) |].
    cbn [Js.all_chars]. rewrite (IH Hname true). reflexivity.
  - cbn [Js.all_chars]. rewrite (IH Hname false).
    unfold file_name_char. rewrite Hc, Hspace. reflexivity.
Qed.

Lemma slice_0_200_spec (p : ascii -> bool) (s : string) :
  Js.all_chars p s = true ->
  Js.all_chars p (Js.slice s 0 200) = true
  /\ (String.length (Js.slice s 0 200) <= 200)%nat.
Proof.
  intros H. unfold Js.slice. split.
  - apply all_chars_substring, H.
  - etransitivity; [apply length_substring |].
    unfold Js.clamp_index, Js.str_length.
    change (0 <? 0) with false. change (200 <? 0) with false. cbv iota.
    lia.
Qed.

Lemma sanitized_stem (name : string) :
  let stem :=
    Js.slice (Js.trim (FileName.collapse_spaces false
                         (FileName.remove_forbidden name))) 0 200 in
  Js.all_chars file_name_char stem = true
  /\ (String.length stem <= 200)%nat.
Proof.
  apply slice_0_200_spec, all_chars_trim, collapse_spaces_clean.
  apply remove_forbidden_clean.
Qed.

(** X24: the name [sanitizeFileName] returns holds none of the characters
    that are forbidden in a file name, no white space but the space, and at
    most 200 characters. *)
Theorem sanitizeFileName_is_safe :
  forall name : string,
    Js.all_chars file_name_char (FileName.sanitizeFileName name) = true
    /\ (String.length (FileName.sanitizeFileName name) <= 200)%nat.
Proof. intros name. exact (sanitized_stem name). Qed.

Lemma blank_title_stem (title : string) :
  Js.all_chars (fun c => FileName.is_forbidden c || Js.is_space c) title
  = true ->
  Js.trim (FileName.collapse_spaces false (FileName.remove_forbidden title))
  = "".
Proof.
  intros H. apply trim_all_space.
  assert (Hspaces : Js.all_chars Js.is_space (FileName.remove_forbidden title)
                    = true).
  { induction title as [| c title IH]; [reflexivity |].
    cbn [Js.all_chars] in H. apply andb_true_iff in H as [Hc Htitle].
    cbn [FileName.remove_forbidden].
    destruct (FileName.is_forbidden c); [exact (IH Htitle) |].
    cbn [orb] in Hc. cbn [Js.all_chars]. rewrite Hc, (IH Htitle).
    reflexivity. }
  revert Hspaces. generalize (FileName.remove_forbidden title) false.
  intros s. induction s as [| c s IH]; intros in_run Hs; [reflexivity |].
  cbn [Js.all_chars] in Hs. apply andb_true_iff in Hs as [Hc Hs].
  cbn [FileName.collapse_spaces]. rewrite Hc.
  destruct in_run; [exact (IH true Hs) |].
  cbn [Js.all_chars]. rewrite (IH true Hs). reflexivity.
Qed.

(** X25: the file name [generateFilename] returns is the sanitised title of
    the popup followed by [.md]: it ends with [.md] and holds at most 203
    characters; for a title made only of forbidden characters and white
    space, the empty title included, it is [.md] alone. *)
Theorem generateFilename_shape :
  forall title : string,
    FileName.generateFilename title
    = FileName.sanitizeFileName title +:+ ".md"
    /\ Js.endsWith (FileName.generateFilename title) ".md" = true
    /\ (String.length (FileName.generateFilename title) <= 203)%nat
    /\ (Js.all_chars (fun c => FileName.is_forbidden c || Js.is_space c) title
        = true ->
        FileName.generateFilename title = ".md").
Proof.
  intros title. unfold FileName.generateFilename.
  destruct (sanitized_stem title) as [_ Hlen]. cbv zeta in Hlen.
  split; [reflexivity |]. split; [apply endsWith_append |].
  split; [rewrite length_append; cbn [String.length]; lia |].
  intros Hblank. rewrite (blank_title_stem title Hblank). reflexivity.
Qed.

Lemma generateFilename_blank_witness :
  FileName.generateFilename " ?? / * " = ".md".
Proof.
  apply (proj2 (proj2 (proj2 (generateFilename_shape " ?? / * ")))).
  reflexivity.
Defined.

(** ** Counting words *)

Lemma length_rev_string (s acc : string) :
  String.length (Js.rev_string acc s)
  = (String.length s + String.length acc)%nat.
Proof.
  revert acc. induction s as [| c s IH]; intros acc; [reflexivity |].
  cbn [Js.rev_string String.length]. rewrite IH. cbn [String.length]. lia.
Qed.

Lemma count_piece (cur : string) :
  length (List.filter (fun w => (0 <? Js.str_length w)%nat)
            [Js.rev_string "" cur])
  = if negb (String.eqb cur "") then 1%nat else 0%nat.
Proof.
  destruct cur as [| c cur]; [reflexivity |].
  cbn [List.filter]. unfold Js.str_length.
  rewrite length_rev_string. cbn [String.length].
  replace (0 <? S (String.length cur) + 0)%nat with true
    by (symmetry; apply Nat.ltb_lt; lia).
  reflexivity.
Qed.

(** The words [countWords] counts are the runs of characters that are no
    white space. *)
Lemma count_split_spaces (text : string) :
  forall (in_run : bool) (cur : string),
    (in_run = true -> cur = "") ->
    length (List.filter (fun w => (0 <? Js.str_length w)%nat)
              (ContentExtractor.split_spaces_go in_run cur text))
    = word_runs (negb (String.eqb cur "")) text.
Proof.
  induction text as [| c text IH]; intros in_run cur Hrun.
  - cbn [ContentExtractor.split_spaces_go word_runs]. apply count_piece.
  - cbn [ContentExtractor.split_spaces_go word_runs].
    destruct (Js.is_space c).
    + destruct in_run.
      * rewrite (Hrun eq_refl). rewrite (IH true "" (fun _ => eq_refl)).
        reflexivity.
      * change (Js.rev_string "" cur
                  :: ContentExtractor.split_spaces_go true "" text)
          with ([Js.rev_string "" cur]
                  ++ ContentExtractor.split_spaces_go true "" text).
        rewrite List.filter_app, length_app, count_piece.
        rewrite (IH true "" (fun _ => eq_refl)). reflexivity.
    + rewrite (IH false (String c cur)) by discriminate. reflexivity.
Qed.

Lemma word_runs_trimStart (text : string) :
  word_runs false (Js.trimStart text) = word_runs false text.
Proof.
  induction text as [| c text IH]; [reflexivity |].
  cbn [Js.trimStart word_runs]. destruct (Js.is_space c) eqn:Hc.
  - exact IH.
  - cbn [word_runs]. rewrite Hc. reflexivity.
Qed.

Lemma word_runs_cons (pending : bool) (c : ascii) (rest : string) :
  word_runs pending (String c rest)
  = if Js.is_space c
    then ((if pending then 1 else 0) + word_runs false rest)%nat
    else word_runs true rest.
Proof. reflexivity. Qed.

Lemma word_runs_trimEnd (text : string) :
  forall pending : bool,
    word_runs pending (Js.trimEnd text) = word_runs pending text.
Proof.
  induction text as [| c text IH]; intros pending; [reflexivity |].
  cbn [Js.trimEnd]. rewrite (word_runs_cons pending c text).
  destruct (Js.trimEnd text) as [| d t] eqn:Ht.
  - destruct (Js.is_space c) eqn:Hc.
    + rewrite <- (IH false). destruct pending; reflexivity.
    + rewrite <- (IH true), word_runs_cons, Hc. reflexivity.
  - rewrite (word_runs_cons pending c (String d t)).
    destruct (Js.is_space c); rewrite IH; reflexivity.
Qed.

Lemma countWords_runs (html : string) :
  ContentExtractor.countWords html
  = word_runs false (ContentExtractor.strip_tags_go 0 html).
Proof.
  unfold ContentExtractor.countWords. cbv zeta.
  rewrite (count_split_spaces _ false "") by discriminate.
  unfold Js.trim. cbn [String.eqb negb].
  rewrite word_runs_trimEnd. apply word_runs_trimStart.
Qed.

Lemma word_runs_space (a b : string) :
  forall pending : bool,
    word_runs pending (a +:+ String " " b)
    = (word_runs pending a + word_runs false b)%nat.
Proof.
  induction a as [| c a IH]; intros pending.
  - change ("" +:+ String " " b) with (String " " b).
    cbn [word_runs]. reflexivity.
  - change (String c a +:+ String " " b) with (String c (a +:+ String " " b)).
    cbn [word_runs]. destruct (Js.is_space c); rewrite IH; lia.
Qed.

Lemma strip_tags_plain (a : string) :
  lacks "<" a ->
  forall rest : string,
    ContentExtractor.strip_tags_go 0 (a +:+ rest)
    = a +:+ ContentExtractor.strip_tags_go 0 rest.
Proof.
  unfold lacks. induction a as [| c a IH]; intros Hlacks rest;
    [reflexivity |].
  cbn [Js.all_chars] in Hlacks. apply andb_true_iff in Hlacks as [Hc Ha].
  apply negb_true_iff in Hc.
  change (String c a +:+ rest) with (String c (a +:+ rest)).
  cbn [ContentExtractor.strip_tags_go]. rewrite Hc, (IH Ha). reflexivity.
Qed.

Lemma strip_tags_skip (a : string) :
  forall (k : nat) (rest : string),
    ContentExtractor.strip_tags_go (String.length a + k) (a +:+ rest)
    = ContentExtractor.strip_tags_go k rest.
Proof.
  induction a as [| c a IH]; intros k rest; [reflexivity |].
  change (String c a +:+ rest) with (String c (a +:+ rest)).
  cbn [String.length Nat.add ContentExtractor.strip_tags_go]. apply IH.
Qed.

(** A whole tag becomes one space. *)
Lemma strip_tags_tag (tag rest : string) :
  lacks ">" tag ->
  ContentExtractor.strip_tags_go 0 (String "<" (tag +:+ String ">" rest))
  = String " " (ContentExtractor.strip_tags_go 0 rest).
Proof.
  intros Htag. cbn [ContentExtractor.strip_tags_go Ascii.eqb Bool.eqb].
  rewrite (indexOf_first ">" tag rest Htag). f_equal.
  replace (S (String.length tag)) with (String.length tag + 1)%nat by lia.
  rewrite (strip_tags_skip tag 1 (String ">" rest)). reflexivity.
Qed.

Lemma strip_tags_none (a : string) :
  lacks "<" a -> ContentExtractor.strip_tags_go 0 a = a.
Proof.
  intros Ha. rewrite <- (append_empty_r a) at 1.
  rewrite (strip_tags_plain a Ha ""). apply append_empty_r.
Qed.

(** X26: for texts without tags, the words of two texts with white space
    between them are counted separately: [countWords] of the two joined by a
    space is the sum of their counts. *)
Theorem countWords_adds_over_a_space :
  forall a b : string,
    lacks "<" a -> lacks "<" b ->
    ContentExtractor.countWords (a +:+ " " +:+ b)
    = (ContentExtractor.countWords a + ContentExtractor.countWords b)%nat.
Proof.
  intros a b Ha Hb. rewrite !countWords_runs.
  change (a +:+ " " +:+ b) with (a +:+ String " " b).
  rewrite (strip_tags_plain a Ha), (strip_tags_none a Ha).
  change (String " " b) with (" " +:+ b).
  rewrite (strip_tags_plain " " eq_refl b), (strip_tags_none b Hb).
  apply word_runs_space.
Qed.

Lemma countWords_adds_witness :
  ContentExtractor.countWords ("  one two" +:+ " " +:+ "three > four ")
  = (ContentExtractor.countWords "  one two"
     + ContentExtractor.countWords "three > four ")%nat.
Proof.
  apply countWords_adds_over_a_space; reflexivity.
Defined.

(** X27: a tag counts as white space: the text before a tag and the text
    after it are counted separately, also when the tag stands inside a
    word. *)
Theorem countWords_tag_separates_words :
  forall a tag b : string,
    lacks "<" a -> lacks ">" tag -> lacks "<" b ->
    ContentExtractor.countWords (a +:+ "<" +:+ tag +:+ ">" +:+ b)
    = (ContentExtractor.countWords a + ContentExtractor.countWords b)%nat.
Proof.
  intros a tag b Ha Htag Hb. rewrite !countWords_runs.
  change (a +:+ "<" +:+ tag +:+ ">" +:+ b)
    with (a +:+ String "<" (tag +:+ String ">" b)).
  rewrite (strip_tags_plain a Ha), (strip_tags_tag tag b Htag).
  rewrite (strip_tags_none a Ha), (strip_tags_none b Hb).
  apply word_runs_space.
Qed.

Lemma countWords_tag_separates_witness :
  ContentExtractor.countWords ("un" +:+ "<" +:+ "b class='x'" +:+ ">" +:+ "able")
  = (ContentExtractor.countWords "un" + ContentExtractor.countWords "able")%nat.
Proof.
  apply countWords_tag_separates_words; reflexivity.
Defined.

(** X28: in a text of ASCII characters, an opening angle bracket that no
    closing one follows is text: it and what follows it are counted as
    words, as in a text without tags. *)
Theorem countWords_unclosed_bracket_is_text :
  forall html : string,
    Js.all_chars is_ascii html = true ->
    lacks ">" html ->
    ContentExtractor.countWords html = word_runs false html.
Proof.
  intros html _ Hhtml. rewrite countWords_runs. f_equal.
  revert Hhtml. unfold lacks.
  induction html as [| c html IH]; intros H; [reflexivity |].
  cbn [Js.all_chars] in H. apply andb_true_iff in H as [_ Hrest].
  cbn [ContentExtractor.strip_tags_go].
  rewrite (indexOf_lacks ">" html Hrest), (IH Hrest).
  destruct (Ascii.eqb c "<"); reflexivity.
Qed.

Lemma countWords_unclosed_bracket_witness :
  ContentExtractor.countWords "a < b <c" = word_runs false "a < b <c".
Proof.
  apply countWords_unclosed_bracket_is_text; reflexivity.
Defined.

(** ** The variable and its filter chain *)

Lemma push_trimmed_prefix (emit : string -> string)
    (before parts : list string) (current : string) :
  TemplateEngine.push_trimmed emit (before ++ parts) current
  = before ++ TemplateEngine.push_trimmed emit parts current.
Proof.
  unfold TemplateEngine.push_trimmed.
  destruct (Js.trim current); [reflexivity | symmetry; apply app_assoc].
Qed.

(** The parts pushed before the scan reaches a character stay in front. *)
Lemma scan_loop_parts_prefix (sep : ascii) (emit : string -> string)
    (before : list string) (rest : string) :
  forall (prev : option ascii) (parts : list string) (current : string)
         (inQuotes : bool) (quoteChar : option ascii) (depth : Z),
    TemplateEngine.scan_loop sep emit rest prev (before ++ parts) current
      inQuotes quoteChar depth
    = before ++ TemplateEngine.scan_loop sep emit rest prev parts current
                  inQuotes quoteChar depth.
Proof.
  induction rest as [| c rest IH];
    intros prev parts current inQuotes quoteChar depth.
  - apply push_trimmed_prefix.
  - rewrite !scan_loop_cons. cbv zeta.
    repeat match goal with
           | |- context [if ?b then _ else _] => destruct b
           end;
      rewrite ?push_trimmed_prefix; apply IH.
Qed.

(** Only a backslash before a character changes how it is read. *)
Lemma scan_loop_prev (sep : ascii) (emit : string -> string) (rest : string)
    (prev1 prev2 : option ascii) (parts : list string) (current : string)
    (inQuotes : bool) (quoteChar : option ascii) (depth : Z) :
  prev1 <> Some Js.backslash -> prev2 <> Some Js.backslash ->
  TemplateEngine.scan_loop sep emit rest prev1 parts current inQuotes
    quoteChar depth
  = TemplateEngine.scan_loop sep emit rest prev2 parts current inQuotes
      quoteChar depth.
Proof.
  intros H1 H2. destruct rest as [| c rest]; [reflexivity |].
  rewrite !scan_loop_cons.
  rewrite (bool_decide_eq_false_2 _ H1), (bool_decide_eq_false_2 _ H2).
  reflexivity.
Qed.

Lemma scan_loop_plain_then (sep : ascii) (emit : string -> string)
    (a : string) :
  Js.all_chars (plain_char sep) a = true ->
  forall (rest : string) (prev : option ascii) (parts : list string)
         (current : string) (quoteChar : option ascii),
    TemplateEngine.scan_loop sep emit (a +:+ rest) prev parts current false
      quoteChar 0
    = TemplateEngine.scan_loop sep emit rest (last_char a prev) parts
        (current +:+ a) false quoteChar 0.
Proof.
  induction a as [| c a IH]; intros Hplain rest prev parts current quoteChar.
  - rewrite append_empty_r. reflexivity.
  - cbn [Js.all_chars] in Hplain. apply andb_true_iff in Hplain as [Hc Ha].
    unfold plain_char in Hc.
    repeat (apply andb_true_iff in Hc as [Hc ?]).
    repeat match goal with
           | H : negb _ = true |- _ => apply negb_true_iff in H
           end.
    change (String c a +:+ rest) with (String c (a +:+ rest)).
    rewrite scan_loop_cons. cbv zeta.
    repeat match goal with
           | H : Ascii.eqb c _ = false |- _ => rewrite H
           end.
    cbn [orb andb last_char]. rewrite (IH Ha), append_assoc. reflexivity.
Qed.

Lemma last_char_word (key : string) (d : option ascii) :
  Js.all_chars Js.is_word key = true -> d <> Some Js.backslash ->
  last_char key d <> Some Js.backslash.
Proof.
  revert d. induction key as [| c key IH]; intros d Hkey Hd; [exact Hd |].
  cbn [Js.all_chars] in Hkey. apply andb_true_iff in Hkey as [Hc Hkey].
  cbn [last_char]. apply (IH (Some c) Hkey). intros [= ->]. discriminate Hc.
Qed.

Lemma trim_word (key : string) :
  Js.all_chars Js.is_word key = true -> Js.trim key = key.
Proof. intros H. exact (trim_no_space key (word_no_space key H)). Qed.

Lemma parseExpression_first_pipe (key chain : string) :
  key <> "" -> Js.all_chars Js.is_word key = true ->
  TemplateEngine.parseExpression (key +:+ "|" +:+ chain)
  = key :: TemplateEngine.parseExpression chain.
Proof.
  intros Hne Hkey. unfold TemplateEngine.parseExpression.
  rewrite (scan_loop_plain_then "|" id key
             (all_chars_weaken _ _ key word_is_plain_char Hkey)).
  change ("|" +:+ chain) with (String "|" chain).
  rewrite scan_loop_cons. cbv zeta.
  change ("" +:+ key) with key.
  cbn [orb andb negb Ascii.eqb Bool.eqb Js.dquote Js.squote Z.eqb].
  unfold TemplateEngine.push_trimmed at 1. rewrite (trim_word key Hkey).
  destruct key as [| k key']; [contradiction |].
  change ([] ++ [id (String k key')]) with ([String k key'] ++ []).
  rewrite scan_loop_parts_prefix.
  rewrite (scan_loop_prev "|" id chain (Some "|"%char) None) by discriminate.
  reflexivity.
Qed.

(** X18: the name before the first pipe of an expression, when it is made of
    letters, digits and underscores, is the variable, and the filters are
    the parts of what follows that pipe. *)
Theorem parseExpression_splits_at_first_pipe :
  forall key chain : string,
    key <> "" -> Js.all_chars Js.is_word key = true ->
    TemplateEngine.parseExpression (key +:+ "|" +:+ chain)
    = key :: TemplateEngine.parseExpression chain.
Proof. exact parseExpression_first_pipe. Qed.

Lemma parseExpression_splits_witness :
  TemplateEngine.parseExpression ("title" +:+ "|" +:+ " upper | (a|b) |")
  = "title" :: TemplateEngine.parseExpression " upper | (a|b) |".
Proof.
  apply parseExpression_splits_at_first_pipe; [discriminate | reflexivity].
Defined.

Lemma unquote_dquoted (text : string) :
  TemplateEngine.unquote (String Js.dquote (text +:+ String Js.dquote ""))
  = text.
Proof.
  unfold TemplateEngine.unquote.
  replace (Js.endsWith (String Js.dquote (text +:+ String Js.dquote ""))
             (String Js.dquote ""))
    with true
    by (symmetry;
        exact (endsWith_append (String Js.dquote text) (String Js.dquote ""))).
  replace (Js.startsWith (String Js.dquote (text +:+ String Js.dquote ""))
             (String Js.dquote ""))
    with true
    by (symmetry;
        exact (startsWith_append (String Js.dquote "")
                 (text +:+ String Js.dquote ""))).
  apply slice_inside.
Qed.

(** A text between double quotes is one argument. *)
Lemma parseFilterArgs_dquoted (text : string) :
  lacks Js.dquote text ->
  TemplateEngine.parseFilterArgs
    (String Js.dquote (text +:+ String Js.dquote ""))
  = [text].
Proof.
  intros Htext. unfold TemplateEngine.parseFilterArgs.
  replace (Js.startsWith (String Js.dquote (text +:+ String Js.dquote "")) "(")
    with false by reflexivity.
  cbn [andb]. rewrite scan_loop_cons. cbv zeta.
  change (Ascii.eqb Js.dquote Js.dquote) with true.
  replace (bool_decide (None = Some Js.backslash)) with false by reflexivity.
  cbn [orb andb negb].
  rewrite (scan_loop_in_dquote "," TemplateEngine.unquote text Htext).
  unfold TemplateEngine.push_trimmed.
  change (("" +:+ String Js.dquote "") +:+ text +:+ String Js.dquote "")
    with (String Js.dquote (text +:+ String Js.dquote "")).
  rewrite (trim_between Js.dquote Js.dquote text eq_refl eq_refl).
  rewrite unquote_dquoted. reflexivity.
Qed.

Lemma parseFilter_dquoted (filterName text : string) :
  Js.all_chars Js.is_word filterName = true ->
  lacks Js.dquote text ->
  TemplateEngine.parseFilter
    (filterName +:+ ":" +:+ String Js.dquote (text +:+ String Js.dquote ""))
  = {| name := filterName; args := [text] |}.
Proof.
  intros Hname Htext. unfold TemplateEngine.parseFilter.
  set (literal := String Js.dquote (text +:+ String Js.dquote "")).
  change (filterName +:+ ":" +:+ literal)
    with (filterName +:+ String ":" literal).
  rewrite (indexOf_first ":" filterName literal
             (word_lacks ":" filterName eq_refl Hname)).
  assert (Hhead : Js.slice (filterName +:+ String ":" literal) 0
                    (Z.of_nat (String.length filterName))
                  = filterName)
    by exact (slice_middle "" filterName (String ":" literal)).
  assert (Htail : Js.slice_from (filterName +:+ String ":" literal)
                    (Z.of_nat (String.length filterName) + 1)
                  = literal).
  { replace (filterName +:+ String ":" literal)
      with ((filterName +:+ ":") +:+ literal) by apply append_assoc.
    replace (Z.of_nat (String.length filterName) + 1)
      with (Z.of_nat (String.length (filterName +:+ ":")))
      by (rewrite length_append; cbn [String.length]; lia).
    apply slice_from_append. }
  rewrite Hhead, Htail, (trim_word filterName Hname).
  unfold literal at 1.
  rewrite (trim_between Js.dquote Js.dquote text eq_refl eq_refl).
  rewrite (parseFilterArgs_dquoted text Htext). reflexivity.
Qed.

(** X29: a filter written [name:"text"] has the one argument [text], without
    its quotes, whatever commas, colons, pipes or parentheses the text
    holds. *)
Theorem parseFilter_quoted_argument :
  forall filterName text : string,
    Js.all_chars Js.is_word filterName = true ->
    lacks Js.dquote text ->
    TemplateEngine.parseFilter
      (filterName +:+ ":" +:+ String Js.dquote (text +:+ String Js.dquote ""))
    = {| name := filterName; args := [text] |}.
Proof. exact parseFilter_dquoted. Qed.

Lemma parseFilter_quoted_argument_witness :
  TemplateEngine.parseFilter
    ("date" +:+ ":"
       +:+ String Js.dquote ("YYYY-MM-DD, HH:mm (a|b)" +:+ String Js.dquote ""))
  = {| name := "date"; args := ["YYYY-MM-DD, HH:mm (a|b)"] |}.
Proof.
  apply parseFilter_quoted_argument; reflexivity.
Defined.

Lemma trimEnd_append (a b : string) :
  b <> "" -> Js.trimEnd b = b -> Js.trimEnd (a +:+ b) = a +:+ b.
Proof.
  intros Hne Hb. induction a as [| c a IH]; [exact Hb |].
  change (String c a +:+ b) with (String c (a +:+ b)).
  cbn [Js.trimEnd]. rewrite IH.
  destruct (a +:+ b) eqn:Hab; [| reflexivity].
  destruct a; [contradiction | discriminate].
Qed.

Lemma lookup_default :
  FilterProcessor.builtinFilters !! "default"
  = Some FilterProcessor.Builtin.default.
Proof. vm_compute. reflexivity. Qed.

Lemma default_result (v : Value) (fallback : string) :
  lift (FilterProcessor.Builtin.default v [fallback])
  = mret match v with
         | VNull | VUndefined | VStr EmptyString => VStr fallback
         | _ => v
         end.
Proof. destruct v as [| | | | s | |]; try destruct s; reflexivity. Qed.

(** The expression [key|default:"fallback"] and its two parts. *)
Lemma parseExpression_default (key fallback : string) :
  key <> "" -> Js.all_chars Js.is_word key = true ->
  lacks Js.dquote fallback ->
  let literal := String Js.dquote (fallback +:+ String Js.dquote "") in
  let body := key +:+ "|" +:+ "default:" +:+ literal in
  Js.trim body = body
  /\ TemplateEngine.parseExpression body = [key; "default:" +:+ literal].
Proof.
  intros Hne Hkey Hfallback literal body.
  assert (Hliteral : Js.trimEnd literal = literal)
    by exact (trimEnd_last (String Js.dquote fallback) Js.dquote eq_refl).
  split.
  - unfold Js.trim, body. destruct key as [| k key']; [contradiction |].
    pose proof Hkey as Hk. cbn [Js.all_chars] in Hk.
    apply andb_true_iff in Hk as [Hk _].
    destruct (word_is_plain k Hk) as (_ & _ & _ & _ & _ & _ & _ & _ & _ & Hs).
    change (String k key' +:+ "|" +:+ "default:" +:+ literal)
      with (String k (key' +:+ "|" +:+ "default:" +:+ literal)).
    rewrite (trimStart_head k _ Hs).
    change (String k (key' +:+ "|" +:+ "default:" +:+ literal))
      with (String k key' +:+ "|" +:+ "default:" +:+ literal).
    rewrite <- !append_assoc.
    apply trimEnd_append; [discriminate | exact Hliteral].
  - unfold body. rewrite (parseExpression_first_pipe key _ Hne Hkey).
    f_equal. unfold TemplateEngine.parseExpression.
    rewrite (scan_loop_plain_then "|" id "default:" eq_refl).
    cbn [last_char]. unfold literal at 1.
    rewrite scan_loop_cons. cbv zeta.
    change (Ascii.eqb Js.dquote Js.dquote) with true.
    replace (bool_decide (Some ":"%char = Some Js.backslash)) with false
      by reflexivity.
    cbn [orb andb negb].
    rewrite (scan_loop_in_dquote "|" id fallback Hfallback).
    change (TemplateEngine.push_trimmed id [] ("default:" +:+ literal)
            = ["default:" +:+ literal]).
    unfold TemplateEngine.push_trimmed.
    assert (Htrim : Js.trim ("default:" +:+ literal) = "default:" +:+ literal).
    { unfold Js.trim.
      change (Js.trimStart ("default:" +:+ literal))
        with ("default:" +:+ literal).
      apply trimEnd_append; [discriminate | exact Hliteral]. }
    rewrite Htrim. reflexivity.
Qed.

(** X30: [{{key|default:"fallback"}}], for a name of letters, digits and
    underscores that is not the name of a member inherited from
    [Object.prototype], renders the fallback when the property is missing,
    [null], [undefined] or the empty string, and the property itself
    otherwise, [0] and [false] included.  The numbers of the context are
    safe integers. *)
Theorem render_default_fills_in :
  forall (key fallback post : string) (ctx : Context),
    key <> "" -> Js.all_chars Js.is_word key = true ->
    inherited_name key = false -> plain_value (VObj ctx) = true ->
    lacks Js.dquote fallback -> lacks "}" fallback ->
    engine_render
      ("{{" +:+ (key +:+ "|" +:+ "default:"
                     +:+ String Js.dquote (fallback +:+ String Js.dquote ""))
            +:+ "}}" +:+ post) ctx
    = (out ← engine_render post ctx;
       mret (TemplateEngine.stringify
               match assoc key ctx with
               | Some VNull | Some VUndefined | None | Some (VStr "") =>
                   VStr fallback
               | Some v => v
               end
             +:+ out)).
Proof.
  intros key fallback post ctx Hne Hkey _ _ Hquote Hbrace.
  unfold engine_render.
  destruct (parseExpression_default key fallback Hne Hkey Hquote)
    as [Htrim Hparse].
  cbv zeta in Htrim, Hparse.
  set (literal := String Js.dquote (fallback +:+ String Js.dquote "")) in *.
  set (body := key +:+ "|" +:+ "default:" +:+ literal) in *.
  assert (Hbody : body <> "").
  { unfold body. destruct key; [contradiction | discriminate]. }
  assert (Hb : Spec.no_closing_brace body).
  { pose proof (word_no_closing_brace key Hkey) as Hk.
    unfold Spec.no_closing_brace, body, literal, lacks in *.
    rewrite !all_chars_append, Hk. cbn [Js.all_chars andb].
    rewrite all_chars_append, Hbrace. reflexivity. }
  rewrite (render_placeholder_first _ ctx body post Hbody Hb).
  unfold TemplateEngine.processExpression. rewrite Htrim, Hparse.
  rewrite (resolve_plain_key key ctx Hkey), apply_filters_cons.
  pose proof (parseFilter_dquoted "default" fallback eq_refl Hquote)
    as Hfilter.
  change ("default" +:+ ":"
            +:+ String Js.dquote (fallback +:+ String Js.dquote ""))
    with ("default:" +:+ literal) in Hfilter.
  rewrite Hfilter.
  cbn [name args TemplateEngine.apply_filters].
  rewrite (apply_registered _ _ _ _ [fallback] lookup_default).
  rewrite default_result, !bind_ret_l.
  destruct (assoc key ctx) as [[| | b | n | s | items | props] |];
    try destruct s; reflexivity.
Qed.

Lemma render_default_fills_in_witness :
  engine_render
    ("{{" +:+ ("published" +:+ "|" +:+ "default:"
                 +:+ String Js.dquote ("not known" +:+ String Js.dquote ""))
          +:+ "}}" +:+ "!")
    [("title", VStr "T")]
  = (out ← engine_render "!" [("title", VStr "T")];
     mret (TemplateEngine.stringify
             match assoc "published" [("title", VStr "T")] with
             | Some VNull | Some VUndefined | None | Some (VStr "") =>
                 VStr "not known"
             | Some v => v
             end
           +:+ out)).
Proof.
  apply render_default_fills_in; [discriminate | reflexivity ..].
Defined.
